(** * Grocery list maker: the component's state, handlers and export text

    A shallow embedding of the React component [GroceryListApp], which the
    repository holds in two near-identical variants:

    - [src/src/App.tsx], the plain variant (module [App] below);
    - [src/unnamed/part_000], the variant with the "Other" unit, the
      decorated header and the trailing total (module [CatalogList]).

    Everything that is textually the same in both files (the data model, the
    three editing handlers, the selection helpers, [formatDate],
    [showToast], [handleSubmit], the file name of the download) is embedded
    once, before the two modules.

    Modelling conventions:
    - a JS [string] is a [string] of bytes (the decorated header is its
      UTF-8 encoding); a JS [number] holding an integer is a [Z];
    - the component's [useState] cells are the fields of [AppState], and a
      handler is a function from the state of the render it was created in
      to the state of the next render;
    - [new Date()] is an input: a [JsDate] read from the clock. *)

From Stdlib Require Import ZArith List Bool Lia.
From Stdlib Require Import Strings.Ascii Strings.String Numbers.DecimalString.
From Stdlib Require Import Numbers.DecimalZ Numbers.DecimalPos.
Import ListNotations.

Open Scope list_scope.
Open Scope string_scope.

(** ** Platform strings *)

(** [String(n)] and template interpolation of an integral number. *)
Definition String_of_number (n : Z) : string :=
  NilZero.string_of_int (Z.to_int n).

(** [s.repeat(count)]. *)
Fixpoint repeat_string (s : string) (count : nat) : string :=
  match count with
  | O => ""
  | S k => s ++ repeat_string s k
  end.

(** The first [n] characters of the endless repetition of [pad], where
    [rest] is what is left of the current copy. *)
Fixpoint fill_from (pad rest : string) (n : nat) : string :=
  match n with
  | O => ""
  | S k =>
      match rest with
      | String c rest' => String c (fill_from pad rest' k)
      | EmptyString =>
          match pad with
          | String c pad' => String c (fill_from pad pad' k)
          | EmptyString => ""
          end
      end
  end.

(** [s.padStart(targetLength, padString)]. *)
Definition padStart (s : string) (targetLength : nat) (padString : string) : string :=
  if (targetLength <=? String.length s)%nat then s
  else fill_from padString padString (targetLength - String.length s) ++ s.

(** ** Data model *)

(** An element of [GroceryConfig.items]. *)
Record CatalogItem : Type := mkCatalogItem {
  cat_id : Z;
  cat_name : string
}.

Record UserProfile : Type := mkUserProfile {
  user_name : string;
  user_mobile : string;
  user_shopkeeperMobile : string
}.

Record GroceryConfig : Type := mkGroceryConfig {
  cfg_items : list CatalogItem;
  cfg_units : list string;
  cfg_user : UserProfile
}.

Record GroceryItem : Type := mkGroceryItem {
  id : Z;
  name : string;
  unit : string;
  quantity : string;
  selected : bool
}.

Record Toast : Type := mkToast {
  toast_show : bool;
  toast_message : string;
  toast_type : string
}.

(** The [useState] cells of the component; [timeouts] holds the delays of
    the [setTimeout] calls made so far. *)
Record AppState : Type := mkAppState {
  items : list GroceryItem;
  config : option GroceryConfig;
  loading : bool;
  showPreview : bool;
  toast : Toast;
  timeouts : list Z
}.

Definition setItems (v : list GroceryItem) (st : AppState) : AppState :=
  mkAppState v (config st) (loading st) (showPreview st) (toast st) (timeouts st).

Definition setConfig (v : option GroceryConfig) (st : AppState) : AppState :=
  mkAppState (items st) v (loading st) (showPreview st) (toast st) (timeouts st).

Definition setLoading (v : bool) (st : AppState) : AppState :=
  mkAppState (items st) (config st) v (showPreview st) (toast st) (timeouts st).

Definition setShowPreview (v : bool) (st : AppState) : AppState :=
  mkAppState (items st) (config st) (loading st) v (toast st) (timeouts st).

Definition setToast (v : Toast) (st : AppState) : AppState :=
  mkAppState (items st) (config st) (loading st) (showPreview st) v (timeouts st).

Definition setTimeout (delay : Z) (st : AppState) : AppState :=
  mkAppState (items st) (config st) (loading st) (showPreview st) (toast st)
             (timeouts st ++ [delay])%list.

(** The state of the first render. *)
Definition initialState : AppState :=
  mkAppState [] None true false (mkToast false "" "") [].

(** ** Handlers shared by the two variants *)

Definition showToast (message type : string) (st : AppState) : AppState :=
  setTimeout 3000 (setToast (mkToast true message type) st).

Definition handleCheckboxChange (id0 : Z) (st : AppState) : AppState :=
  setItems
    (map (fun item =>
            if (id item =? id0)%Z
            then mkGroceryItem (id item) (name item) (unit item) (quantity item)
                               (negb (selected item))
            else item)
         (items st))
    st.

Definition handleUnitChange (id0 : Z) (unit0 : string) (st : AppState) : AppState :=
  setItems
    (map (fun item =>
            if (id item =? id0)%Z
            then mkGroceryItem (id item) (name item) unit0 (quantity item)
                               (selected item)
            else item)
         (items st))
    st.

Definition handleQuantityChange (id0 : Z) (quantity0 : string) (st : AppState) : AppState :=
  setItems
    (map (fun item =>
            if (id item =? id0)%Z
            then mkGroceryItem (id item) (name item) (unit item) quantity0
                               (selected item)
            else item)
         (items st))
    st.

Definition getSelectedCount (st : AppState) : nat :=
  List.length (filter (fun item => selected item) (items st)).

Definition getSelectedItems (st : AppState) : list GroceryItem :=
  filter (fun item => selected item) (items st).

Definition handleSubmit (st : AppState) : AppState :=
  let selectedCount := getSelectedCount st in
  if (selectedCount =? 0)%nat
  then showToast "Please select at least one item" "warning" st
  else setShowPreview true st.

Definition handleBackToList (st : AppState) : AppState :=
  setShowPreview false st.

(** ** The clock and [formatDate] *)

(** What [new Date()] yields, through the three accessors the code calls:
    [getFullYear()], [getMonth()] (0 to 11) and [getDate()] (1 to 31). *)
Record JsDate : Type := mkJsDate {
  getFullYear : Z;
  getMonth : Z;
  getDate : Z
}.

(** The values the accessors of a JS [Date] can return: the day of the
    month, the month index, and a year within the range of time values
    (20 April -271821 to 13 September 275760). *)
Definition valid_JsDate (date : JsDate) : Prop :=
  (1 <= getDate date <= 31)%Z /\
  (0 <= getMonth date <= 11)%Z /\
  (-271821 <= getFullYear date <= 275760)%Z.

(** [date.toLocaleString('en-US', { month: 'short' })]: the abbreviated
    month names of the platform's en-US locale data, by month index; the
    last case is what the platform gives for an invalid date, which
    [new Date()] never is. *)
Definition monthShort (date : JsDate) : string :=
  match getMonth date with
  | 0%Z => "Jan" | 1%Z => "Feb" | 2%Z => "Mar" | 3%Z => "Apr"
  | 4%Z => "May" | 5%Z => "Jun" | 6%Z => "Jul" | 7%Z => "Aug"
  | 8%Z => "Sep" | 9%Z => "Oct" | 10%Z => "Nov" | 11%Z => "Dec"
  | _ => "Invalid Date"
  end.

Definition formatDate (date : JsDate) : string :=
  let day := padStart (String_of_number (getDate date)) 2 "0" in
  let month := monthShort date in
  let year := getFullYear date in
  day ++ "-" ++ month ++ "-" ++ String_of_number year.

(** The line feed written [\n] in the source. *)
Definition LF : string := String (ascii_of_nat 10) "".

(** [array.forEach((item, index) => ...)] where the callback updates a
    variable of the enclosing scope: the variable is threaded through the
    calls, [index] counting from the position of the first element. *)
Fixpoint forEach {A V : Type} (f : A -> nat -> V -> V)
         (array : list A) (index : nat) (s : V) : V :=
  match array with
  | [] => s
  | item :: rest => forEach f rest (S index) (f item index s)
  end.

(** The anchor that [handleDownload] clicks: the blob's text and the
    [download] attribute. *)
Record SavedFile : Type := mkSavedFile {
  file_text : string;
  file_download : string
}.

(** What the component renders, by the order of the tests in its body. *)
Inductive View : Type :=
| LoadingView
| ConfigurationErrorView
| PreviewView
| EditingView.

Definition render (st : AppState) : View :=
  if loading st then LoadingView
  else match config st with
       | None => ConfigurationErrorView
       | Some _ => if showPreview st then PreviewView else EditingView
       end.

(** The outcome of the [fetch] of the configuration and of its parsing. *)
Inductive FetchResult : Type :=
| FetchOk (configData : GroceryConfig)
| FetchFailed.

(** ** [encodeURIComponent] and the window opened by the send button *)

(** The characters [encodeURIComponent] leaves as they are: letters,
    digits and [- _ . ! ~ * ' ( )]. *)
Definition unreserved (c : ascii) : bool :=
  let n := nat_of_ascii c in
  ((65 <=? n) && (n <=? 90) || (97 <=? n) && (n <=? 122)
   || (48 <=? n) && (n <=? 57))%nat
  || existsb (Ascii.eqb c) (list_ascii_of_string "-_.!~*'()").

(** The upper-case hexadecimal digit of a value below 16. *)
Definition hex_digit (n : nat) : ascii :=
  if (n <? 10)%nat then ascii_of_nat (48 + n) else ascii_of_nat (55 + n).

(** The escape of one byte: a percent sign and two hexadecimal digits. *)
Definition percent_encode (c : ascii) : string :=
  let n := nat_of_ascii c in
  String "%" (String (hex_digit (n / 16)) (String (hex_digit (n mod 16)) "")).

(** [encodeURIComponent(s)] on the UTF-8 bytes of a well-formed [s]: a
    character outside the unreserved set is escaped byte by byte, and every
    byte of a character that is not ASCII is above 127, hence escaped. *)
Fixpoint encodeURIComponent (s : string) : string :=
  match s with
  | EmptyString => ""
  | String c rest =>
      (if unreserved c then String c "" else percent_encode c)
      ++ encodeURIComponent rest
  end.

(** What [window.open(url, target)] is called with. *)
Record OpenedWindow : Type := mkOpenedWindow {
  window_url : string;
  window_target : string
}.

(** ** Variant [src/src/App.tsx] *)

Module App.

Definition initialItems (configData : GroceryConfig) : list GroceryItem :=
  map (fun item =>
         mkGroceryItem (cat_id item) (cat_name item) "KG(s)" "1" false)
      (cfg_items configData).

(** The effect run at mount, at the resolution of the fetch. *)
Definition loadConfig (r : FetchResult) (st : AppState) : AppState :=
  match r with
  | FetchOk configData =>
      setLoading false
        (setItems (initialItems configData)
           (setConfig (Some configData) st))
  | FetchFailed =>
      setLoading false
        (showToast "Failed to load grocery items. Please refresh the page"
                   "error" st)
  end.

Definition generateListText (now : JsDate) (st : AppState) : string :=
  match config st with
  | None => ""
  | Some config =>
      let selectedItems := getSelectedItems st in
      let text := "Date: " ++ formatDate now ++ LF in
      let text := text ++ ("Name: " ++ user_name (cfg_user config) ++ LF) in
      let text := text ++ ("Contact No. - " ++ user_mobile (cfg_user config)
                           ++ LF ++ LF) in
      let text := text ++ ("Grocery List:" ++ LF) in
      let text := text ++ (repeat_string "=" 40 ++ LF ++ LF) in
      let text :=
        forEach (fun item index text =>
                   text ++ (String_of_number (Z.of_nat index + 1) ++ ") "
                            ++ quantity item ++ " " ++ unit item ++ " "
                            ++ name item ++ LF))
                selectedItems 0 text in
      text
  end.

(** [nowText] is the clock read by [generateListText], [nowName] the one
    read for the file name. *)
Definition handleDownload (nowText nowName : JsDate) (st : AppState)
  : SavedFile * AppState :=
  let text := generateListText nowText st in
  (mkSavedFile text ("grocery-list-" ++ formatDate nowName ++ ".txt"),
   showToast "List downloaded successfully!" "success" st).

(** [written] tells whether the promise of [clipboard.writeText] is
    fulfilled; the first component is what the clipboard then holds. *)
Definition handleCopyToClipboard (now : JsDate) (written : bool) (st : AppState)
  : option string * AppState :=
  if written
  then (Some (generateListText now st),
        showToast "List copied to clipboard!" "success" st)
  else (None, showToast "Failed to copy to clipboard" "error" st).

Definition handleSendWhatsApp (now : JsDate) (st : AppState)
  : option OpenedWindow * AppState :=
  match config st with
  | None => (None, st)
  | Some config =>
      let text := encodeURIComponent (generateListText now st) in
      let url := "https://wa.me/" ++ user_shopkeeperMobile (cfg_user config)
                 ++ "?text=" ++ text in
      (Some (mkOpenedWindow url "_blank"),
       showToast "Opening WhatsApp..." "info" st)
  end.

End App.

(** ** Variant [src/unnamed/part_000] *)

Module CatalogList.

Definition initialItems (configData : GroceryConfig) : list GroceryItem :=
  map (fun item =>
         mkGroceryItem (cat_id item) (cat_name item) "Kg(s)" "1" false)
      (cfg_items configData).

Definition loadConfig (r : FetchResult) (st : AppState) : AppState :=
  match r with
  | FetchOk configData =>
      setLoading false
        (setItems (initialItems configData)
           (setConfig (Some configData) st))
  | FetchFailed =>
      setLoading false
        (showToast "Failed to load grocery items. Please refresh the page"
                   "error" st)
  end.

Definition formatItemDisplay (item : GroceryItem) : string :=
  if String.eqb (unit item) "Other"
  then quantity item ++ " " ++ name item
  else quantity item ++ " " ++ unit item ++ " " ++ name item.

Definition generateListText (now : JsDate) (st : AppState) : string :=
  match config st with
  | None => ""
  | Some config =>
      let selectedItems := getSelectedItems st in
      let text := "📅 Date: " ++ formatDate now ++ LF in
      let text := text ++ ("👤 Name: " ++ user_name (cfg_user config) ++ LF) in
      let text := text ++ ("📱 Contact: " ++ user_mobile (cfg_user config)
                           ++ LF ++ LF) in
      let text := text ++ ("🛒 *Grocery List*" ++ LF) in
      let text := text ++ (repeat_string "-" 35 ++ LF ++ LF) in
      let text :=
        forEach (fun item index text =>
                   text ++ (String_of_number (Z.of_nat index + 1) ++ ") "
                            ++ formatItemDisplay item ++ LF))
                selectedItems 0 text in
      let text := text ++ (LF ++ repeat_string "-" 35 ++ LF) in
      let text := text ++ ("Total Items: "
                           ++ String_of_number
                                (Z.of_nat (List.length selectedItems))) in
      text
  end.

Definition handleDownload (nowText nowName : JsDate) (st : AppState)
  : SavedFile * AppState :=
  let text := generateListText nowText st in
  (mkSavedFile text ("grocery-list-" ++ formatDate nowName ++ ".txt"),
   showToast "List downloaded successfully!" "success" st).

(** [written] tells whether the promise of [clipboard.writeText] is
    fulfilled; the first component is what the clipboard then holds. *)
Definition handleCopyToClipboard (now : JsDate) (written : bool) (st : AppState)
  : option string * AppState :=
  if written
  then (Some (generateListText now st),
        showToast "List copied to clipboard!" "success" st)
  else (None, showToast "Failed to copy to clipboard" "error" st).

Definition handleSendWhatsApp (now : JsDate) (st : AppState)
  : option OpenedWindow * AppState :=
  match config st with
  | None => (None, st)
  | Some config =>
      let text := encodeURIComponent (generateListText now st) in
      let url := "https://wa.me/" ++ user_shopkeeperMobile (cfg_user config)
                 ++ "?text=" ++ text in
      (Some (mkOpenedWindow url "_blank"),
       showToast "Opening WhatsApp..." "info" st)
  end.

End CatalogList.

(** ** Notions used to state the properties *)

(** The common shape of the three editing handlers: the entries whose [id]
    is [id0] are replaced by their image under [f], the others are kept. *)
Definition replace_by_id (id0 : Z) (f : GroceryItem -> GroceryItem)
           (l : list GroceryItem) : list GroceryItem :=
  map (fun item => if (id item =? id0)%Z then f item else item) l.

Definition toggled (item : GroceryItem) : GroceryItem :=
  mkGroceryItem (id item) (name item) (unit item) (quantity item)
                (negb (selected item)).

Definition with_unit (unit0 : string) (item : GroceryItem) : GroceryItem :=
  mkGroceryItem (id item) (name item) unit0 (quantity item) (selected item).

Definition with_quantity (quantity0 : string) (item : GroceryItem) : GroceryItem :=
  mkGroceryItem (id item) (name item) (unit item) quantity0 (selected item).

(** Position [i] does not hold the same entry in [l] and in [l']. *)
Definition differ_at (l l' : list GroceryItem) (i : nat) : Prop :=
  nth_error l i <> nth_error l' i.

(** A single call [l ~> l'] keyed by [id0] touched at most one entry, and
    only an entry whose [id] is [id0]. *)
Definition at_most_one_changed (id0 : Z) (l l' : list GroceryItem) : Prop :=
  List.length l' = List.length l /\
  (forall i j, differ_at l l' i -> differ_at l l' j -> i = j) /\
  (forall i, differ_at l l' i ->
             exists e, nth_error l i = Some e /\ id e = id0).

(** What the specification asks of the entry made for a catalog item. *)
Definition initial_entry_of (default_unit : string)
           (c : CatalogItem) (e : GroceryItem) : Prop :=
  id e = cat_id c /\ name e = cat_name c /\
  selected e = false /\ quantity e = "1" /\ unit e = default_unit.

(** [sel] is made of the entries of [l] with [selected = true], each one
    once, in the order of [l]. *)
Inductive SelectedOf : list GroceryItem -> list GroceryItem -> Prop :=
| SelectedOf_nil : SelectedOf [] []
| SelectedOf_keep e l sel :
    selected e = true -> SelectedOf l sel -> SelectedOf (e :: l) (e :: sel)
| SelectedOf_skip e l sel :
    selected e = false -> SelectedOf l sel -> SelectedOf (e :: l) sel.

(** The number of entries with [selected = true]. *)
Fixpoint count_selected (l : list GroceryItem) : nat :=
  match l with
  | [] => 0
  | e :: rest => (if selected e then 1 else 0) + count_selected rest
  end.

(** One line per entry of [l], the first one numbered [k], the next ones
    [k + 1], [k + 2], ...; an entry is shown by [show]. *)
Fixpoint numbered_from (show : GroceryItem -> string) (k : nat)
         (l : list GroceryItem) : string :=
  match l with
  | [] => ""
  | e :: rest =>
      (String_of_number (Z.of_nat k) ++ ") " ++ show e ++ LF)
      ++ numbered_from show (S k) rest
  end.

(** The two ways an entry is shown, in the words of the specification:
    "{quantity} {unit} {name}" and "{quantity} {name}". *)
Definition with_unit_shown (e : GroceryItem) : string :=
  quantity e ++ " " ++ unit e ++ " " ++ name e.

Definition without_unit_shown (e : GroceryItem) : string :=
  quantity e ++ " " ++ name e.

(** The header block of each variant: date, name, contact, title and
    separator. *)
Definition App_header (now : JsDate) (cfg : GroceryConfig) : string :=
  "Date: " ++ formatDate now ++ LF
  ++ "Name: " ++ user_name (cfg_user cfg) ++ LF
  ++ "Contact No. - " ++ user_mobile (cfg_user cfg) ++ LF ++ LF
  ++ "Grocery List:" ++ LF
  ++ "========================================" ++ LF ++ LF.

Definition CatalogList_header (now : JsDate) (cfg : GroceryConfig) : string :=
  "📅 Date: " ++ formatDate now ++ LF
  ++ "👤 Name: " ++ user_name (cfg_user cfg) ++ LF
  ++ "📱 Contact: " ++ user_mobile (cfg_user cfg) ++ LF ++ LF
  ++ "🛒 *Grocery List*" ++ LF
  ++ "-----------------------------------" ++ LF ++ LF.

(** In [text], right after [pre], stands the line numbered [k] that shows
    [shown]. *)
Definition has_line (text pre : string) (k : nat) (shown : string) : Prop :=
  exists post,
    text = pre ++ (String_of_number (Z.of_nat k) ++ ") " ++ shown ++ LF) ++ post.

(** [suffixb suf s]: [s] ends with [suf]. *)
Definition suffixb (suf s : string) : bool :=
  (String.length suf <=? String.length s)%nat &&
  String.eqb (substring (String.length s - String.length suf)
                        (String.length suf) s) suf.

(** [infixb p s]: [p] occurs somewhere in [s]. *)
Fixpoint infixb (p s : string) : bool :=
  prefix p s ||
  match s with
  | EmptyString => false
  | String _ s' => infixb p s'
  end.

Definition is_digit (c : ascii) : bool :=
  let n := nat_of_ascii c in ((48 <=? n) && (n <=? 57))%nat.

Definition month_abbreviations : list string :=
  ["Jan"; "Feb"; "Mar"; "Apr"; "May"; "Jun";
   "Jul"; "Aug"; "Sep"; "Oct"; "Nov"; "Dec"].

(** The shape DD-Mon-YYYY: two digits, a hyphen, one of the twelve
    three-letter English month abbreviations, a hyphen, four digits. *)
Definition is_DD_Mon_YYYY (s : string) : bool :=
  match s with
  | String d1 (String d2 (String h1 (String m1 (String m2 (String m3
      (String h2 (String y1 (String y2 (String y3 (String y4
        EmptyString)))))))))) =>
      is_digit d1 && is_digit d2
      && Ascii.eqb h1 "-"
      && existsb (String.eqb (String m1 (String m2 (String m3 "")))) month_abbreviations
      && Ascii.eqb h2 "-"
      && is_digit y1 && is_digit y2 && is_digit y3 && is_digit y4
  | _ => false
  end.

(** The number written in decimal by [s], if [s] is a decimal numeral. *)
Definition decimal_value (s : string) : option Z :=
  option_map Z.of_int (NilZero.int_of_string s).

(** Checks run over the days of a month, the month indices and the years
    of four digits: the piece of [formatDate] for the value has the right
    length, is made of digits (or is the abbreviation of that rank) and
    reads back as the value. *)
Definition reads_as (s : string) (v : Z) : bool :=
  match decimal_value s with
  | Some w => (w =? v)%Z
  | None => false
  end.

Definition day_ok (d : Z) : bool :=
  match padStart (String_of_number d) 2 "0" with
  | String a (String b EmptyString) as s =>
      is_digit a && is_digit b && reads_as s d
  | _ => false
  end.

Definition month_ok (m : Z) : bool :=
  match monthShort (mkJsDate 0 m 1) with
  | String a (String b (String c EmptyString)) as s =>
      match nth_error month_abbreviations (Z.to_nat m) with
      | Some abbreviation => String.eqb abbreviation s
      | None => false
      end
  | _ => false
  end.

Definition year_ok (y : Z) : bool :=
  match String_of_number y with
  | String a (String b (String c (String d EmptyString))) as s =>
      is_digit a && is_digit b && is_digit c && is_digit d && reads_as s y
  | _ => false
  end.

(** The integers [lo], [lo + 1], ..., [lo + n - 1]. *)
Definition Z_range (lo : Z) (n : nat) : list Z :=
  map (fun k => (lo + Z.of_nat k)%Z) (seq 0 n).

(** ** The example of the specification

    Catalog Milk, Bread, Eggs; user A, 123; items 1 and 3 selected with
    quantity "2", units "Kg(s)" and "Other". *)

Definition example_config : GroceryConfig :=
  mkGroceryConfig
    [mkCatalogItem 1 "Milk"; mkCatalogItem 2 "Bread"; mkCatalogItem 3 "Eggs"]
    ["Kg(s)"; "Other"]
    (mkUserProfile "A" "123" "456").

Definition example_edits (st : AppState) : AppState :=
  handleUnitChange 3 "Other"
    (handleUnitChange 1 "Kg(s)"
       (handleQuantityChange 3 "2"
          (handleQuantityChange 1 "2"
             (handleCheckboxChange 3
                (handleCheckboxChange 1 st))))).

Definition example_App : AppState :=
  example_edits (App.loadConfig (FetchOk example_config) initialState).

Definition example_CatalogList : AppState :=
  example_edits (CatalogList.loadConfig (FetchOk example_config) initialState).

Definition example_date : JsDate := mkJsDate 2026 10 3.

(** A date of the year 10000. *)
Definition example_far_date : JsDate := mkJsDate 10000 0 1.

(** A configuration in which two catalog items carry the same id. *)
Definition example_config_same_id : GroceryConfig :=
  mkGroceryConfig
    [mkCatalogItem 1 "Milk"; mkCatalogItem 1 "Bread"]
    ["Kg(s)"]
    (mkUserProfile "A" "123" "456").

Definition example_same_id : AppState :=
  App.loadConfig (FetchOk example_config_same_id) initialState.

(** A state whose configuration failed to load. *)
Definition example_no_config : AppState :=
  App.loadConfig FetchFailed initialState.

(** ** The rendered notice, the timers and the events of the page *)



(** The callback of the oldest pending [setTimeout] runs: all delays being
    the same, the timers fire in the order they were set. *)
Definition timeoutFires (st : AppState) : AppState :=
  match timeouts st with
  | [] => st
  | _ :: rest =>
      mkAppState (items st) (config st) (loading st) (showPreview st)
                 (mkToast false "" "") rest
  end.

(** The two files. *)
Inductive Variant : Type :=
| AppVariant
| CatalogListVariant.

Definition loadConfig_of (v : Variant) : FetchResult -> AppState -> AppState :=
  match v with
  | AppVariant => App.loadConfig
  | CatalogListVariant => CatalogList.loadConfig
  end.

(** The unit given to a fresh entry. *)
Definition default_unit_of (v : Variant) : string :=
  match v with
  | AppVariant => "KG(s)"
  | CatalogListVariant => "Kg(s)"
  end.

(** The [option] elements of the unit [select]. *)
Definition unit_options (v : Variant) (cfg : GroceryConfig) : list string :=
  match v with
  | AppVariant => cfg_units cfg
  | CatalogListVariant => (cfg_units cfg ++ ["Other"])%list
  end.

(** What can happen to the mounted component: the fetch of the effect
    settles, a control of the rendered view is used, a clipboard write
    settles, a timer fires. *)
Inductive Event : Type :=
| FetchSettled (r : FetchResult)
| CheckboxChange (id0 : Z)
| UnitChange (id0 : Z) (unit0 : string)
| QuantityChange (id0 : Z) (quantity0 : string)
| SubmitClick
| BackClick
| ClipboardSettled (now : JsDate) (written : bool)
| DownloadClick (nowText nowName : JsDate)
| SendClick (now : JsDate)
| TimeoutFired.

(** Some selected row carries [id0]: its unit and quantity controls are
    not [disabled]. *)
Definition has_selected_row (id0 : Z) (st : AppState) : Prop :=
  exists e, In e (items st) /\ id e = id0 /\ selected e = true.

(** The event can happen in [st]: the effect runs once, at mount, so its
    fetch settles while [loading] is still set; a control is used in the
    view that renders it (the row controls on the [id] of a row, the unit
    and quantity controls on a row that is selected, the unit [select] with
    one of its options); a clipboard write settles at some time after the
    configuration was loaded; a timer fires when one is pending. *)
Definition enabled (v : Variant) (st : AppState) (ev : Event) : Prop :=
  match ev with
  | FetchSettled _ => loading st = true
  | CheckboxChange id0 =>
      render st = EditingView /\ In id0 (map id (items st))
  | UnitChange id0 unit0 =>
      render st = EditingView /\ has_selected_row id0 st /\
      exists cfg, config st = Some cfg /\ In unit0 (unit_options v cfg)
  | QuantityChange id0 _ =>
      render st = EditingView /\ has_selected_row id0 st
  | SubmitClick => render st = EditingView
  | BackClick | DownloadClick _ _ | SendClick _ => render st = PreviewView
  | ClipboardSettled _ _ => loading st = false /\ config st <> None
  | TimeoutFired => timeouts st <> []
  end.

(** The state after the event. *)
Definition dispatch (v : Variant) (ev : Event) (st : AppState) : AppState :=
  match ev with
  | FetchSettled r => loadConfig_of v r st
  | CheckboxChange id0 => handleCheckboxChange id0 st
  | UnitChange id0 unit0 => handleUnitChange id0 unit0 st
  | QuantityChange id0 quantity0 => handleQuantityChange id0 quantity0 st
  | SubmitClick => handleSubmit st
  | BackClick => handleBackToList st
  | ClipboardSettled now written =>
      match v with
      | AppVariant => snd (App.handleCopyToClipboard now written st)
      | CatalogListVariant => snd (CatalogList.handleCopyToClipboard now written st)
      end
  | DownloadClick nowText nowName =>
      match v with
      | AppVariant => snd (App.handleDownload nowText nowName st)
      | CatalogListVariant => snd (CatalogList.handleDownload nowText nowName st)
      end
  | SendClick now =>
      match v with
      | AppVariant => snd (App.handleSendWhatsApp now st)
      | CatalogListVariant => snd (CatalogList.handleSendWhatsApp now st)
      end
  | TimeoutFired => timeoutFires st
  end.

(** The states the mounted component can be in. *)
Inductive reachable (v : Variant) : AppState -> Prop :=
| reachable_initial : reachable v initialState
| reachable_step st ev :
    reachable v st -> enabled v st ev -> reachable v (dispatch v ev st).

(** What holds of every reachable state (see [reachable_invariant]). *)
Definition page_invariant (v : Variant) (st : AppState) : Prop :=
  (loading st = true -> st = initialState) /\
  (toast_show (toast st) = true -> timeouts st <> []) /\
  (loading st = false ->
   match config st with
   | None => items st = [] /\ showPreview st = false
   | Some cfg =>
       map id (items st) = map cat_id (cfg_items cfg) /\
       map name (items st) = map cat_name (cfg_items cfg) /\
       Forall (fun u => In u (default_unit_of v :: unit_options v cfg))
              (map unit (items st)) /\
       (showPreview st = true -> 0 < count_selected (items st))
   end).

(** ** Reading a percent-encoded string back *)

Definition hex_value (c : ascii) : option nat :=
  let n := nat_of_ascii c in
  if ((48 <=? n) && (n <=? 57))%nat then Some (n - 48)
  else if ((65 <=? n) && (n <=? 70))%nat then Some (n - 55)
  else if ((97 <=? n) && (n <=? 102))%nat then Some (n - 87)
  else None.

(** The bytes written by a percent-encoded string, as the receiver of the
    link reads them; [None] when an escape is cut short or is not made of
    hexadecimal digits. *)
Fixpoint percent_decode (s : string) : option string :=
  match s with
  | EmptyString => Some ""
  | String c rest =>
      if Ascii.eqb c "%"
      then match rest with
           | String h (String l rest') =>
               match hex_value h, hex_value l, percent_decode rest' with
               | Some a, Some b, Some r =>
                   Some (String (ascii_of_nat (16 * a + b)) r)
               | _, _, _ => None
               end
           | _ => None
           end
      else option_map (String c) (percent_decode rest)
  end.

(** A character [encodeURIComponent] can write: an unreserved one or the
    percent sign. *)
Definition url_safe (c : ascii) : bool := unreserved c || Ascii.eqb c "%".

(** Every character of [s] passes [p]. *)
Fixpoint string_forall (p : ascii -> bool) (s : string) : bool :=
  match s with
  | EmptyString => true
  | String c rest => p c && string_forall p rest
  end.


(** [st'] is [st] but for its entries. *)
Definition same_but_items (st' st : AppState) : Prop :=
  config st' = config st /\ loading st' = loading st /\
  showPreview st' = showPreview st /\ toast st' = toast st /\
  timeouts st' = timeouts st.

(** [st'] is [st] but for its notice and timers. *)
Definition same_but_toast (st' st : AppState) : Prop :=
  items st' = items st /\ config st' = config st /\
  loading st' = loading st /\ showPreview st' = showPreview st.

(** * Properties *)

(** ** The editing handlers *)

Section Editing.

Variable id0 : Z.

Lemma handleCheckboxChange_items st :
  items (handleCheckboxChange id0 st) = replace_by_id id0 toggled (items st).
Proof. reflexivity. Qed.

Lemma handleUnitChange_items unit0 st :
  items (handleUnitChange id0 unit0 st)
  = replace_by_id id0 (with_unit unit0) (items st).
Proof. reflexivity. Qed.

Lemma handleQuantityChange_items quantity0 st :
  items (handleQuantityChange id0 quantity0 st)
  = replace_by_id id0 (with_quantity quantity0) (items st).
Proof. reflexivity. Qed.

Lemma handleCheckboxChange_eq st :
  handleCheckboxChange id0 st
  = setItems (replace_by_id id0 toggled (items st)) st.
Proof. reflexivity. Qed.

Lemma handleUnitChange_eq unit0 st :
  handleUnitChange id0 unit0 st
  = setItems (replace_by_id id0 (with_unit unit0) (items st)) st.
Proof. reflexivity. Qed.

Lemma handleQuantityChange_eq quantity0 st :
  handleQuantityChange id0 quantity0 st
  = setItems (replace_by_id id0 (with_quantity quantity0) (items st)) st.
Proof. reflexivity. Qed.

Lemma setItems_same st : setItems (items st) st = st.
Proof. destruct st; reflexivity. Qed.

Lemma setItems_setItems l l' st : setItems l (setItems l' st) = setItems l st.
Proof. reflexivity. Qed.

Lemma replace_by_id_length f l :
  List.length (replace_by_id id0 f l) = List.length l.
Proof. apply length_map. Qed.

Lemma replace_by_id_nth f l i :
  nth_error (replace_by_id id0 f l) i
  = option_map (fun item => if (id item =? id0)%Z then f item else item)
               (nth_error l i).
Proof. unfold replace_by_id. apply nth_error_map. Qed.

(** An id that is not in the list selects nothing. *)
Lemma replace_by_id_absent f l :
  ~ In id0 (map id l) -> replace_by_id id0 f l = l.
Proof.
  induction l as [|e l IH]; intros Hnot; [reflexivity|].
  simpl in *.
  destruct (Z.eqb_spec (id e) id0) as [E|_].
  - exfalso. apply Hnot. now left.
  - f_equal. apply IH. intros Hin. apply Hnot. now right.
Qed.

(** Two replacements in a row are one, when the first keeps the ids. *)
Lemma replace_by_id_twice f g l :
  (forall e, id (g e) = id e) ->
  replace_by_id id0 f (replace_by_id id0 g l)
  = replace_by_id id0 (fun e => f (g e)) l.
Proof.
  intros Hid. unfold replace_by_id. rewrite map_map.
  apply map_ext. intros e.
  destruct (Z.eqb_spec (id e) id0) as [E|N].
  - rewrite Hid. rewrite (proj2 (Z.eqb_eq _ _) E). reflexivity.
  - rewrite (proj2 (Z.eqb_neq _ _) N). reflexivity.
Qed.

Lemma replace_by_id_fix f l :
  (forall e, id e = id0 -> f e = e) -> replace_by_id id0 f l = l.
Proof.
  intros Hf. unfold replace_by_id.
  rewrite <- (map_id l) at 2. apply map_ext. intros e.
  destruct (Z.eqb_spec (id e) id0); auto.
Qed.

(** A position that differs holds an entry whose id is [id0]. *)
Lemma replace_by_id_differ f l i :
  differ_at l (replace_by_id id0 f l) i ->
  exists e, nth_error l i = Some e /\ id e = id0.
Proof.
  unfold differ_at. rewrite replace_by_id_nth.
  destruct (nth_error l i) as [e|]; simpl; intros Hd.
  - exists e. split; [reflexivity|].
    destruct (Z.eqb_spec (id e) id0); [assumption | congruence].
  - congruence.
Qed.

(** In a list without repeated ids, an id names one position. *)
Lemma NoDup_ids_position (l : list GroceryItem) i j e e' :
  NoDup (map id l) ->
  nth_error l i = Some e -> nth_error l j = Some e' ->
  id e = id e' -> i = j.
Proof.
  intros Hnd Hi Hj Hid.
  assert (Hli : i < List.length (map id l)).
  { rewrite length_map. apply nth_error_Some. congruence. }
  apply (proj1 (NoDup_nth_error (map id l)) Hnd i j Hli).
  rewrite !nth_error_map, Hi, Hj. simpl. congruence.
Qed.

Lemma replace_by_id_at_most_one f l :
  NoDup (map id l) ->
  at_most_one_changed id0 l (replace_by_id id0 f l).
Proof.
  intros Hnd. split; [apply replace_by_id_length|]. split.
  - intros i j Hi Hj.
    destruct (replace_by_id_differ _ _ _ Hi) as (e & He & Hide).
    destruct (replace_by_id_differ _ _ _ Hj) as (e' & He' & Hide').
    apply (NoDup_ids_position l i j e e'); congruence.
  - apply replace_by_id_differ.
Qed.

End Editing.

(** C5. Toggling the selection of an id twice gives back the state it
    started from: the entry named by the id has its original [selected]
    value and every other entry, and every other cell of the state, is
    unchanged. *)
Theorem handleCheckboxChange_twice (id0 : Z) (st : AppState) :
  handleCheckboxChange id0 (handleCheckboxChange id0 st) = st.
Proof.
  rewrite !handleCheckboxChange_eq, setItems_setItems.
  change (items (setItems ?l st)) with l.
  rewrite replace_by_id_twice by reflexivity.
  rewrite replace_by_id_fix; [apply setItems_same|].
  intros [i n u q s] _. unfold toggled. simpl. now rewrite negb_involutive.
Qed.

(** C6, amended. In a list whose ids are pairwise distinct, one call of the
    toggle, unit or quantity handler leaves the length of the list as it
    was, changes the entry of at most one position, and a changed entry has
    the id of the call. *)
Theorem edit_changes_at_most_one (id0 : Z) (unit0 quantity0 : string) (st : AppState) :
  NoDup (map id (items st)) ->
  at_most_one_changed id0 (items st) (items (handleCheckboxChange id0 st)) /\
  at_most_one_changed id0 (items st) (items (handleUnitChange id0 unit0 st)) /\
  at_most_one_changed id0 (items st) (items (handleQuantityChange id0 quantity0 st)).
Proof.
  intros Hnd.
  rewrite handleCheckboxChange_items, handleUnitChange_items,
    handleQuantityChange_items.
  repeat split; try apply replace_by_id_length;
    try (apply replace_by_id_at_most_one; assumption).
Qed.

(** Witness of C6 on the example of the specification: changing item 3. *)
Lemma edit_changes_at_most_one_witness :
  NoDup (map id (items example_CatalogList)) /\
  at_most_one_changed 3 (items example_CatalogList)
    (items (handleCheckboxChange 3 example_CatalogList)) /\
  at_most_one_changed 3 (items example_CatalogList)
    (items (handleUnitChange 3 "Litre(s)" example_CatalogList)) /\
  at_most_one_changed 3 (items example_CatalogList)
    (items (handleQuantityChange 3 "Rs.20" example_CatalogList)).
Proof.
  assert (Hnd : NoDup (map id (items example_CatalogList))).
  { simpl. repeat constructor; simpl; intuition discriminate. }
  split; [exact Hnd|].
  exact (edit_changes_at_most_one 3 "Litre(s)" "Rs.20" example_CatalogList Hnd).
Defined.

(** C6 as stated fails: with two catalog items of id 1, one toggle of id 1
    changes the entries of positions 0 and 1. *)
Lemma edit_changes_two_entries_same_id :
  let l := items example_same_id in
  let l' := items (handleCheckboxChange 1 example_same_id) in
  differ_at l l' 0 /\ differ_at l l' 1 /\
  ~ at_most_one_changed 1 l l'.
Proof.
  assert (H0 : differ_at (items example_same_id)
                 (items (handleCheckboxChange 1 example_same_id)) 0)
    by (unfold differ_at; simpl; discriminate).
  assert (H1 : differ_at (items example_same_id)
                 (items (handleCheckboxChange 1 example_same_id)) 1)
    by (unfold differ_at; simpl; discriminate).
  simpl. split; [exact H0|]. split; [exact H1|].
  intros (_ & Hone & _). specialize (Hone 0 1 H0 H1). discriminate.
Qed.

(** C9. An id that no entry carries makes each of the three handlers give
    back the state unchanged. *)
Theorem edit_absent_id_noop (id0 : Z) (unit0 quantity0 : string) (st : AppState) :
  ~ In id0 (map id (items st)) ->
  handleCheckboxChange id0 st = st /\
  handleUnitChange id0 unit0 st = st /\
  handleQuantityChange id0 quantity0 st = st.
Proof.
  intros Hnot.
  rewrite handleCheckboxChange_eq, handleUnitChange_eq, handleQuantityChange_eq.
  rewrite !replace_by_id_absent by assumption.
  repeat split; apply setItems_same.
Qed.

(** Witness of C9: id 7 on the example of the specification. *)
Lemma edit_absent_id_noop_witness :
  ~ In 7%Z (map id (items example_CatalogList)) /\
  handleCheckboxChange 7 example_CatalogList = example_CatalogList /\
  handleUnitChange 7 "Other" example_CatalogList = example_CatalogList /\
  handleQuantityChange 7 "5" example_CatalogList = example_CatalogList.
Proof.
  assert (Hnot : ~ In 7%Z (map id (items example_CatalogList)))
    by (simpl; intuition discriminate).
  split; [exact Hnot|].
  exact (edit_absent_id_noop 7 "Other" "5" example_CatalogList Hnot).
Defined.

(** C7. Setting the unit of an id to "Other" and then to [u] leaves every
    quantity of the list as it was, and an entry of that id ends with unit
    [u] and its quantity, name and selection untouched; when [u] was its
    unit before the two calls, the entry is exactly the one before. *)
Theorem handleUnitChange_other_and_back
        (id0 : Z) (u : string) (st : AppState) (i : nat) (e : GroceryItem) :
  nth_error (items st) i = Some e ->
  id e = id0 ->
  let st' := handleUnitChange id0 u (handleUnitChange id0 "Other" st) in
  map quantity (items st') = map quantity (items st) /\
  nth_error (items st') i = Some (with_unit u e) /\
  quantity (with_unit u e) = quantity e /\
  unit (with_unit u e) = u /\
  (unit e = u -> nth_error (items st') i = Some e).
Proof.
  intros Hi Hid st'.
  assert (Hitems : items st' = replace_by_id id0 (with_unit u) (items st)).
  { subst st'. rewrite !handleUnitChange_eq.
    cbn [items setItems].
    rewrite replace_by_id_twice by reflexivity. reflexivity. }
  assert (Hnth : nth_error (items st') i = Some (with_unit u e)).
  { rewrite Hitems, replace_by_id_nth, Hi. simpl.
    now rewrite (proj2 (Z.eqb_eq _ _) Hid). }
  split; [|split; [exact Hnth|split; [reflexivity|split; [reflexivity|]]]].
  - rewrite Hitems. unfold replace_by_id. rewrite map_map.
    apply map_ext. intros x. now destruct (id x =? id0)%Z.
  - intros Hu. rewrite Hnth. f_equal. destruct e; simpl in *. now subst.
Qed.

(** Witness of C7: item 1 of the example, whose unit is "Kg(s)" and whose
    quantity is "2". *)
Lemma handleUnitChange_other_and_back_witness :
  let e := mkGroceryItem 1 "Milk" "Kg(s)" "2" true in
  let st' := handleUnitChange 1 "Kg(s)"
               (handleUnitChange 1 "Other" example_CatalogList) in
  nth_error (items example_CatalogList) 0 = Some e /\
  map quantity (items st') = map quantity (items example_CatalogList) /\
  nth_error (items st') 0 = Some e.
Proof.
  pose (e := mkGroceryItem 1 "Milk" "Kg(s)" "2" true).
  pose proof (handleUnitChange_other_and_back 1 "Kg(s)" example_CatalogList 0 e
                eq_refl eq_refl) as H.
  destruct H as (Hq & _ & _ & _ & Hback).
  split; [reflexivity|]. split; [exact Hq|]. exact (Hback eq_refl).
Defined.

(** ** Initialization *)

Lemma initial_entries default_unit (l : list CatalogItem) :
  Forall2 (initial_entry_of default_unit) l
    (map (fun item =>
            mkGroceryItem (cat_id item) (cat_name item) default_unit "1" false)
         l).
Proof.
  induction l as [|c l IH]; simpl; constructor; [|exact IH].
  repeat split.
Qed.

(** C4. A configuration that loads gives as many entries as it has catalog
    items, the k-th entry made from the k-th catalog item (same id and
    name), unselected, with quantity "1" and the variant's default unit
    ("KG(s)" in App.tsx, "Kg(s)" in the other variant); the view leaves
    the loading state. *)
Theorem loadConfig_initial_items (configData : GroceryConfig) (st : AppState) :
  let a := App.loadConfig (FetchOk configData) st in
  let c := CatalogList.loadConfig (FetchOk configData) st in
  List.length (items a) = List.length (cfg_items configData) /\
  Forall2 (initial_entry_of "KG(s)") (cfg_items configData) (items a) /\
  List.length (items c) = List.length (cfg_items configData) /\
  Forall2 (initial_entry_of "Kg(s)") (cfg_items configData) (items c) /\
  count_selected (items a) = 0 /\ count_selected (items c) = 0 /\
  config a = Some configData /\ config c = Some configData /\
  loading a = false /\ loading c = false.
Proof.
  simpl.
  assert (Hcount : forall u (l : list CatalogItem),
             count_selected
               (map (fun item =>
                       mkGroceryItem (cat_id item) (cat_name item) u "1" false)
                    l) = 0).
  { intros u l. induction l; simpl; auto. }
  unfold App.initialItems, CatalogList.initialItems.
  rewrite !length_map, !Hcount.
  repeat split; apply initial_entries.
Qed.

(** ** Submitting *)

Lemma getSelectedCount_count st :
  getSelectedCount st = count_selected (items st).
Proof.
  unfold getSelectedCount.
  induction (items st) as [|e l IH]; [reflexivity|].
  simpl. destruct (selected e); simpl; now rewrite IH.
Qed.

Lemma count_selected_zero l :
  count_selected l = 0 <-> Forall (fun e => selected e = false) l.
Proof.
  induction l as [|e l IH]; simpl.
  - split; auto.
  - destruct (selected e) eqn:E; split; intros H.
    + discriminate.
    + inversion H; subst. congruence.
    + constructor; [assumption | now apply IH].
    + inversion H; subst. now apply IH.
Qed.

Lemma count_selected_pos l :
  0 < count_selected l <-> Exists (fun e => selected e = true) l.
Proof.
  induction l as [|e l IH]; simpl.
  - split; [lia | intros H; inversion H].
  - destruct (selected e) eqn:E; split; intros H.
    + now left.
    + lia.
    + right. apply IH. lia.
    + inversion H; subst; [congruence | simpl; now apply IH].
Qed.

(** C3. When no entry is selected, submit leaves the preview flag, the
    rendered view, the entries and the configuration as they were and
    shows the warning notice; when some entry is selected it sets the
    preview flag, so that the editing view becomes the preview, and leaves
    the entries as they were. *)
Theorem handleSubmit_guard (st : AppState) :
  (Forall (fun e => selected e = false) (items st) ->
   showPreview (handleSubmit st) = showPreview st /\
   render (handleSubmit st) = render st /\
   items (handleSubmit st) = items st /\
   config (handleSubmit st) = config st /\
   toast (handleSubmit st)
   = mkToast true "Please select at least one item" "warning") /\
  (Exists (fun e => selected e = true) (items st) ->
   showPreview (handleSubmit st) = true /\
   items (handleSubmit st) = items st /\
   toast (handleSubmit st) = toast st /\
   (render st = EditingView -> render (handleSubmit st) = PreviewView)).
Proof.
  unfold handleSubmit. rewrite getSelectedCount_count. split.
  - intros Hnone. apply count_selected_zero in Hnone. rewrite Hnone.
    simpl. repeat split.
  - intros Hsome. apply count_selected_pos in Hsome.
    destruct (Nat.eqb_spec (count_selected (items st)) 0) as [E|_]; [lia|].
    simpl. repeat split.
    unfold render. simpl. destruct (loading st); [discriminate|].
    destruct (config st); [|discriminate]. reflexivity.
Qed.

(** Witness of C3: the state just after loading (nothing selected) and the
    example of the specification (items 1 and 3 selected). *)
Lemma handleSubmit_guard_witness :
  let st0 := CatalogList.loadConfig (FetchOk example_config) initialState in
  (Forall (fun e => selected e = false) (items st0) /\
   render (handleSubmit st0) = render st0 /\
   toast (handleSubmit st0)
   = mkToast true "Please select at least one item" "warning") /\
  (Exists (fun e => selected e = true) (items example_CatalogList) /\
   showPreview (handleSubmit example_CatalogList) = true).
Proof.
  intros st0.
  assert (Hnone : Forall (fun e => selected e = false) (items st0))
    by (vm_compute; repeat constructor).
  assert (Hsome : Exists (fun e => selected e = true) (items example_CatalogList))
    by (vm_compute; left; reflexivity).
  split.
  - destruct (proj1 (handleSubmit_guard st0) Hnone) as (_ & Hr & _ & _ & Ht).
    split; [exact Hnone|]. split; [exact Hr | exact Ht].
  - destruct (proj2 (handleSubmit_guard example_CatalogList) Hsome) as (Hp & _).
    split; [exact Hsome | exact Hp].
Defined.

(** ** The export text *)

(** C10. Without a configuration, [generateListText] is the empty string
    in both variants, whatever the entries and the date. *)
Theorem generateListText_no_config (now : JsDate) (st : AppState) :
  config st = None ->
  App.generateListText now st = "" /\ CatalogList.generateListText now st = "".
Proof.
  intros Hc. unfold App.generateListText, CatalogList.generateListText.
  rewrite Hc. split; reflexivity.
Qed.

(** Witness of C10: the state after a failed load, with an entry list put
    in by hand. *)
Lemma generateListText_no_config_witness :
  let st := setItems (items example_CatalogList) example_no_config in
  config st = None /\
  App.generateListText example_date st = "" /\
  CatalogList.generateListText example_date st = "".
Proof.
  split; [reflexivity|].
  exact (generateListText_no_config example_date
           (setItems (items example_CatalogList) example_no_config) eq_refl).
Defined.

(** *** Strings *)

Lemma append_assoc (a b c : string) : (a ++ b) ++ c = a ++ (b ++ c).
Proof. induction a as [|x a IH]; simpl; [reflexivity | now rewrite IH]. Qed.

Lemma append_empty_r (a : string) : a ++ "" = a.
Proof. induction a as [|x a IH]; simpl; [reflexivity | now rewrite IH]. Qed.

Lemma length_append (a b : string) :
  String.length (a ++ b) = String.length a + String.length b.
Proof. induction a as [|x a IH]; simpl; [reflexivity | now rewrite IH]. Qed.

Lemma substring_all (s : string) : substring 0 (String.length s) s = s.
Proof. induction s as [|x s IH]; simpl; [reflexivity | now rewrite IH]. Qed.

Lemma substring_after (pre s : string) :
  substring (String.length pre) (String.length s) (pre ++ s) = s.
Proof. induction pre as [|x pre IH]; simpl; [apply substring_all | exact IH]. Qed.

(** [suffixb] says yes on every string that ends with [suf]. *)
Lemma suffixb_complete (suf pre : string) : suffixb suf (pre ++ suf) = true.
Proof.
  unfold suffixb. rewrite length_append.
  replace (String.length pre + String.length suf - String.length suf)
    with (String.length pre) by lia.
  rewrite substring_after, String.eqb_refl.
  rewrite (proj2 (Nat.leb_le _ _)) by lia. reflexivity.
Qed.

Lemma prefix_append (p post : string) : prefix p (p ++ post) = true.
Proof.
  induction p as [|x p IH]; simpl; [now destruct post|].
  destruct (ascii_dec x x); [exact IH | congruence].
Qed.

(** [infixb] says yes on every string in which [p] occurs. *)
Lemma infixb_complete (p pre post : string) : infixb p (pre ++ p ++ post) = true.
Proof.
  induction pre as [|x pre IH]; simpl.
  - pose proof (prefix_append p post) as H.
    destruct (p ++ post); cbn [infixb]; rewrite H; reflexivity.
  - rewrite IH. apply orb_true_r.
Qed.

(** *** The loop of [generateListText] *)

Lemma forEach_ext {A V : Type} (f g : A -> nat -> V -> V) l k s :
  (forall a i v, f a i v = g a i v) -> forEach f l k s = forEach g l k s.
Proof.
  intros Hfg. revert k s.
  induction l as [|a l IH]; intros k s; simpl; [reflexivity|].
  now rewrite Hfg, IH.
Qed.

(** The loop appends to the text one numbered line per item, the line of
    the item at index [k] carrying the number [k + 1]. *)
Lemma forEach_numbered (show : GroceryItem -> string) l k text :
  forEach (fun item index text =>
             text ++ (String_of_number (Z.of_nat index + 1) ++ ") "
                      ++ show item ++ LF))
          l k text
  = text ++ numbered_from show (S k) l.
Proof.
  revert k text.
  induction l as [|e l IH]; intros k text; simpl.
  - now rewrite append_empty_r.
  - rewrite IH, append_assoc.
    replace (Z.of_nat k + 1)%Z with (Z.of_nat (S k)) by lia.
    reflexivity.
Qed.

Lemma numbered_from_app show k l1 l2 :
  numbered_from show k (l1 ++ l2)%list
  = numbered_from show k l1 ++ numbered_from show (k + List.length l1) l2.
Proof.
  revert k.
  induction l1 as [|e l1 IH]; intros k; simpl.
  - now rewrite Nat.add_0_r.
  - rewrite IH, !append_assoc.
    replace (S k + List.length l1) with (k + S (List.length l1)) by lia.
    reflexivity.
Qed.

(** The line of the entry at index [k] stands after the lines of the [k]
    entries before it and carries the number [k0 + k]. *)
Lemma numbered_from_nth show k0 l k e :
  nth_error l k = Some e ->
  numbered_from show k0 l
  = numbered_from show k0 (firstn k l)
    ++ (String_of_number (Z.of_nat (k0 + k)) ++ ") " ++ show e ++ LF)
    ++ numbered_from show (S (k0 + k)) (skipn (S k) l).
Proof.
  intros Hk.
  assert (Hlen : List.length (firstn k l) = k).
  { apply firstn_length_le. apply Nat.lt_le_incl. apply nth_error_Some. congruence. }
  rewrite <- (firstn_skipn_middle k l Hk) at 1.
  rewrite numbered_from_app, Hlen. simpl. now rewrite !append_assoc.
Qed.

Lemma SelectedOf_filter l : SelectedOf l (filter (fun item => selected item) l).
Proof.
  induction l as [|e l IH]; simpl; [constructor|].
  destruct (selected e) eqn:E; constructor; assumption.
Qed.

(** [SelectedOf] determines the selection. *)
Lemma SelectedOf_unique l sel sel' :
  SelectedOf l sel -> SelectedOf l sel' -> sel = sel'.
Proof.
  intros H. revert sel'.
  induction H as [|e l sel He _ IH|e l sel He _ IH]; intros sel' H'.
  - now inversion H'.
  - inversion H'; subst; [f_equal; auto | congruence].
  - inversion H'; subst; [congruence | auto].
Qed.

(** The text of the plain variant: the header, then the numbered lines. *)
Lemma App_generateListText_shape now st cfg :
  config st = Some cfg ->
  App.generateListText now st
  = App_header now cfg ++ numbered_from with_unit_shown 1 (getSelectedItems st).
Proof.
  intros Hc. unfold App.generateListText. rewrite Hc.
  rewrite (forEach_ext _
             (fun item index text =>
                text ++ (String_of_number (Z.of_nat index + 1) ++ ") "
                         ++ with_unit_shown item ++ LF))).
  - rewrite forEach_numbered. f_equal.
    change (repeat_string "=" 40)
      with "========================================".
    unfold App_header. repeat rewrite append_assoc. reflexivity.
  - intros a i v. unfold with_unit_shown.
    repeat rewrite append_assoc. reflexivity.
Qed.

(** The text of the other variant: the header, the numbered lines, a
    separator and the total. *)
Lemma CatalogList_generateListText_shape now st cfg :
  config st = Some cfg ->
  CatalogList.generateListText now st
  = CatalogList_header now cfg
    ++ numbered_from CatalogList.formatItemDisplay 1 (getSelectedItems st)
    ++ LF ++ "-----------------------------------" ++ LF
    ++ "Total Items: "
    ++ String_of_number (Z.of_nat (List.length (getSelectedItems st))).
Proof.
  intros Hc. unfold CatalogList.generateListText. rewrite Hc.
  rewrite forEach_numbered.
  change (repeat_string "-" 35) with "-----------------------------------".
  unfold CatalogList_header. repeat rewrite append_assoc. reflexivity.
Qed.

(** C1, amended. With a configuration loaded, the text of either variant
    is its header followed by one line per entry with [selected = true],
    in the order of the entry list, the lines numbered 1, 2, 3, ...; the
    text of the variant of part_000 then ends with a separator and
    "Total Items: n", n the number of selected entries, while the text of
    App.tsx ends with its last numbered line. *)
Theorem generateListText_lists_selected
        (now : JsDate) (st : AppState) (cfg : GroceryConfig) :
  config st = Some cfg ->
  let sel := getSelectedItems st in
  SelectedOf (items st) sel /\
  List.length sel = count_selected (items st) /\
  App.generateListText now st
  = App_header now cfg ++ numbered_from with_unit_shown 1 sel /\
  CatalogList.generateListText now st
  = CatalogList_header now cfg
    ++ numbered_from CatalogList.formatItemDisplay 1 sel
    ++ LF ++ "-----------------------------------" ++ LF
    ++ "Total Items: " ++ String_of_number (Z.of_nat (count_selected (items st))) /\
  suffixb (String_of_number (Z.of_nat (count_selected (items st))))
          (CatalogList.generateListText now st) = true.
Proof.
  intros Hc sel.
  assert (Hlen : List.length sel = count_selected (items st))
    by apply getSelectedCount_count.
  assert (Htext := CatalogList_generateListText_shape now st cfg Hc).
  fold sel in Htext. rewrite Hlen in Htext.
  split; [apply SelectedOf_filter|]. split; [exact Hlen|].
  split; [now apply App_generateListText_shape|]. split; [exact Htext|].
  rewrite Htext. repeat rewrite <- append_assoc. apply suffixb_complete.
Qed.

(** Witness of C1: the example of the specification, in both variants. *)
Lemma generateListText_lists_selected_witness :
  config example_CatalogList = Some example_config /\
  getSelectedItems example_CatalogList
  = [mkGroceryItem 1 "Milk" "Kg(s)" "2" true;
     mkGroceryItem 3 "Eggs" "Other" "2" true] /\
  CatalogList.generateListText example_date example_CatalogList
  = CatalogList_header example_date example_config
    ++ "1) 2 Kg(s) Milk" ++ LF ++ "2) 2 Eggs" ++ LF
    ++ LF ++ "-----------------------------------" ++ LF
    ++ "Total Items: 2".
Proof.
  split; [reflexivity|]. split; [reflexivity|].
  exact (proj1 (proj2 (proj2 (proj2
           (generateListText_lists_selected example_date example_CatalogList
              example_config eq_refl))))).
Defined.

(** C1 as stated fails on App.tsx: on the example of the specification, two
    entries are selected and the text does not end with the count 2 (it
    ends with the line of the second entry). *)
Lemma App_generateListText_no_total :
  config example_App = Some example_config /\
  count_selected (items example_App) = 2 /\
  App.generateListText example_date example_App
  = App_header example_date example_config
    ++ "1) 2 Kg(s) Milk" ++ LF ++ "2) 2 Other Eggs" ++ LF /\
  ~ (exists pre,
        App.generateListText example_date example_App
        = pre ++ String_of_number (Z.of_nat (count_selected (items example_App)))).
Proof.
  split; [reflexivity|]. split; [reflexivity|]. split; [reflexivity|].
  intros [pre Hpre].
  pose proof (suffixb_complete
                (String_of_number (Z.of_nat (count_selected (items example_App))))
                pre) as H.
  rewrite <- Hpre in H. vm_compute in H. discriminate.
Qed.

(** C2, amended. The line of the k-th selected entry (k counted from 0)
    stands in the text after the header and the lines of the k selected
    entries before it, and carries the number k + 1. In the variant of
    part_000 it shows "{quantity} {name}" when the unit is "Other" and
    "{quantity} {unit} {name}" otherwise; in App.tsx it shows
    "{quantity} {unit} {name}" whatever the unit is. *)
Theorem generateListText_line
        (now : JsDate) (st : AppState) (cfg : GroceryConfig)
        (k : nat) (e : GroceryItem) :
  config st = Some cfg ->
  nth_error (getSelectedItems st) k = Some e ->
  let before := firstn k (getSelectedItems st) in
  has_line (CatalogList.generateListText now st)
           (CatalogList_header now cfg
            ++ numbered_from CatalogList.formatItemDisplay 1 before)
           (S k)
           (if String.eqb (unit e) "Other"
            then without_unit_shown e else with_unit_shown e) /\
  has_line (App.generateListText now st)
           (App_header now cfg ++ numbered_from with_unit_shown 1 before)
           (S k)
           (with_unit_shown e).
Proof.
  intros Hc Hk before. split.
  - rewrite (CatalogList_generateListText_shape now st cfg Hc).
    rewrite (numbered_from_nth _ 1 _ k e Hk). fold before.
    change (if String.eqb (unit e) "Other"
            then without_unit_shown e else with_unit_shown e)
      with (CatalogList.formatItemDisplay e).
    eexists. repeat rewrite append_assoc. reflexivity.
  - rewrite (App_generateListText_shape now st cfg Hc).
    rewrite (numbered_from_nth _ 1 _ k e Hk). fold before.
    eexists. repeat rewrite append_assoc. reflexivity.
Qed.

(** Witness of C2: the second selected entry of the example, Eggs with
    unit "Other", in the variant of part_000. *)
Lemma generateListText_line_witness :
  config example_CatalogList = Some example_config /\
  nth_error (getSelectedItems example_CatalogList) 1
  = Some (mkGroceryItem 3 "Eggs" "Other" "2" true) /\
  has_line (CatalogList.generateListText example_date example_CatalogList)
           (CatalogList_header example_date example_config
            ++ "1) 2 Kg(s) Milk" ++ LF)
           2 "2 Eggs".
Proof.
  split; [reflexivity|]. split; [reflexivity|].
  exact (proj1 (generateListText_line example_date example_CatalogList
                  example_config 1 (mkGroceryItem 3 "Eggs" "Other" "2" true)
                  eq_refl eq_refl)).
Defined.

(** C2 as stated fails on App.tsx: the entry Eggs of the example is
    selected with unit "Other" and quantity "2"; its line is
    "2) 2 Other Eggs", and "2 Eggs" followed by a line feed occurs nowhere
    in the text. *)
Lemma App_generateListText_shows_Other :
  let eggs := mkGroceryItem 3 "Eggs" "Other" "2" true in
  nth_error (getSelectedItems example_App) 1 = Some eggs /\
  has_line (App.generateListText example_date example_App)
           (App_header example_date example_config ++ "1) 2 Kg(s) Milk" ++ LF)
           2 "2 Other Eggs" /\
  ~ (exists pre post,
        App.generateListText example_date example_App
        = pre ++ (without_unit_shown eggs ++ LF) ++ post).
Proof.
  split; [reflexivity|]. split.
  - exists "". reflexivity.
  - intros (pre & post & H).
    pose proof (infixb_complete
                  (without_unit_shown (mkGroceryItem 3 "Eggs" "Other" "2" true)
                   ++ LF) pre post) as Hin.
    rewrite <- H in Hin. vm_compute in Hin. discriminate.
Qed.

(** ** The date *)

Lemma Z_range_In lo n z :
  (lo <= z < lo + Z.of_nat n)%Z -> In z (Z_range lo n).
Proof.
  intros Hz. unfold Z_range. apply in_map_iff.
  exists (Z.to_nat (z - lo)). split; [lia|].
  apply in_seq. lia.
Qed.

(** A check that holds on the whole range from [lo] to [hi] holds on each
    of its members. *)
Lemma Z_range_check (f : Z -> bool) lo hi :
  forallb f (Z_range lo (Z.to_nat (hi - lo + 1))) = true ->
  forall z, (lo <= z <= hi)%Z -> f z = true.
Proof.
  intros Hall z Hz.
  apply (proj1 (forallb_forall f _) Hall).
  apply Z_range_In. lia.
Qed.

Lemma day_ok_all d : (1 <= d <= 31)%Z -> day_ok d = true.
Proof. apply (Z_range_check day_ok 1 31). vm_compute. reflexivity. Qed.

Lemma month_ok_all m : (0 <= m <= 11)%Z -> month_ok m = true.
Proof. apply (Z_range_check month_ok 0 11). vm_compute. reflexivity. Qed.

Lemma year_ok_all y : (1000 <= y <= 9999)%Z -> year_ok y = true.
Proof. apply (Z_range_check year_ok 1000 9999). vm_compute. reflexivity. Qed.

Lemma reads_as_value s v : reads_as s v = true -> decimal_value s = Some v.
Proof.
  unfold reads_as. destruct (decimal_value s) as [w|]; [|discriminate].
  intros H. apply Z.eqb_eq in H. now subst.
Qed.

(** C8, amended. For a date whose year has four digits (1000 to 9999),
    [formatDate] gives a string of the shape DD-Mon-YYYY: the day of the
    month on two digits, the English abbreviation of the month, the year
    on four digits, joined by hyphens; the file name of the download is
    "grocery-list-" followed by that string and ".txt", in both
    variants. *)
Theorem formatDate_shape (date : JsDate) :
  valid_JsDate date ->
  (1000 <= getFullYear date <= 9999)%Z ->
  is_DD_Mon_YYYY (formatDate date) = true /\
  decimal_value (substring 0 2 (formatDate date)) = Some (getDate date) /\
  nth_error month_abbreviations (Z.to_nat (getMonth date))
  = Some (substring 3 3 (formatDate date)) /\
  decimal_value (substring 7 4 (formatDate date)) = Some (getFullYear date) /\
  (forall nowText st,
      file_download (fst (App.handleDownload nowText date st))
      = "grocery-list-" ++ formatDate date ++ ".txt" /\
      file_download (fst (CatalogList.handleDownload nowText date st))
      = "grocery-list-" ++ formatDate date ++ ".txt").
Proof.
  intros (Hd & Hm & _) Hy.
  cut (is_DD_Mon_YYYY (formatDate date) = true /\
       decimal_value (substring 0 2 (formatDate date)) = Some (getDate date) /\
       nth_error month_abbreviations (Z.to_nat (getMonth date))
       = Some (substring 3 3 (formatDate date)) /\
       decimal_value (substring 7 4 (formatDate date))
       = Some (getFullYear date)).
  { intros (H1 & H2 & H3 & H4). repeat split; assumption. }
  pose proof (day_ok_all _ Hd) as Hday.
  pose proof (month_ok_all _ Hm) as Hmonth.
  pose proof (year_ok_all _ Hy) as Hyear.
  unfold formatDate, day_ok, month_ok, year_ok in *.
  change (monthShort date) with (monthShort (mkJsDate 0 (getMonth date) 1)).
  destruct (padStart (String_of_number (getDate date)) 2 "0")
    as [|d1 [|d2 [|? ?]]]; try discriminate.
  destruct (monthShort (mkJsDate 0 (getMonth date) 1))
    as [|m1 [|m2 [|m3 [|? ?]]]]; try discriminate.
  destruct (String_of_number (getFullYear date))
    as [|y1 [|y2 [|y3 [|y4 [|? ?]]]]]; try discriminate.
  destruct (nth_error month_abbreviations (Z.to_nat (getMonth date)))
    as [abbreviation|] eqn:Hnth; [|discriminate].
  apply String.eqb_eq in Hmonth. subst abbreviation.
  apply andb_prop in Hday. destruct Hday as [Hday Hdv].
  apply andb_prop in Hday. destruct Hday as [Hd1 Hd2].
  apply andb_prop in Hyear. destruct Hyear as [Hyear Hyv].
  apply andb_prop in Hyear. destruct Hyear as [Hyear Hy4].
  apply andb_prop in Hyear. destruct Hyear as [Hyear Hy3].
  apply andb_prop in Hyear. destruct Hyear as [Hy1 Hy2].
  assert (Hin : existsb (String.eqb (String m1 (String m2 (String m3 ""))))
                        month_abbreviations = true).
  { apply existsb_exists. exists (String m1 (String m2 (String m3 ""))).
    split; [exact (nth_error_In _ _ Hnth) | apply String.eqb_refl]. }
  cbn [append is_DD_Mon_YYYY substring].
  rewrite Hd1, Hd2, Hy1, Hy2, Hy3, Hy4, Hin.
  repeat split; auto using reads_as_value.
Qed.

(** Witness of C8: 3 November 2026. *)
Lemma formatDate_shape_witness :
  valid_JsDate example_date /\
  formatDate example_date = "03-Nov-2026" /\
  is_DD_Mon_YYYY (formatDate example_date) = true /\
  file_download (fst (CatalogList.handleDownload example_date example_date
                        example_CatalogList))
  = "grocery-list-03-Nov-2026.txt".
Proof.
  assert (Hv : valid_JsDate example_date) by (unfold valid_JsDate; simpl; lia).
  assert (Hy : (1000 <= getFullYear example_date <= 9999)%Z) by (simpl; lia).
  pose proof (formatDate_shape example_date Hv Hy) as (Hs & _ & _ & _ & Hf).
  split; [exact Hv|]. split; [reflexivity|]. split; [exact Hs|].
  exact (proj2 (Hf example_date example_CatalogList)).
Defined.

(** C8 as stated fails: on 1 January 10000, a date of the JS range,
    [formatDate] gives "01-Jan-10000", whose year has five digits. *)
Lemma formatDate_year_10000 :
  valid_JsDate example_far_date /\
  formatDate example_far_date = "01-Jan-10000" /\
  is_DD_Mon_YYYY (formatDate example_far_date) = false.
Proof.
  split; [unfold valid_JsDate; simpl; lia|].
  split; reflexivity.
Qed.

(** * Further properties of the handlers *)

(** ** What an edit keeps *)

Lemma replace_by_id_map_field {B : Type} (g : GroceryItem -> B) id0 f l :
  (forall e, g (f e) = g e) ->
  map g (replace_by_id id0 f l) = map g l.
Proof.
  intros Hg. unfold replace_by_id. rewrite map_map.
  apply map_ext. intros e. destruct (id e =? id0)%Z; auto.
Qed.

Lemma replace_by_id_commute a b f g l :
  (forall e, id (f e) = id e) -> (forall e, id (g e) = id e) ->
  (forall e, id e = a -> id e = b -> f (g e) = g (f e)) ->
  replace_by_id a f (replace_by_id b g l)
  = replace_by_id b g (replace_by_id a f l).
Proof.
  intros Hf Hg Hfg. unfold replace_by_id. rewrite !map_map.
  apply map_ext. intros e.
  destruct (Z.eqb_spec (id e) a) as [Ea|Na], (Z.eqb_spec (id e) b) as [Eb|Nb];
    rewrite ?Hf, ?Hg;
    repeat match goal with
           | |- context [(id e =? ?x)%Z] =>
               destruct (Z.eqb_spec (id e) x); try congruence
           end; auto.
Qed.

Lemma setItems_replace a f l st :
  setItems (replace_by_id a f (items (setItems l st))) (setItems l st)
  = setItems (replace_by_id a f l) st.
Proof. reflexivity. Qed.

(** X1. The three editing handlers keep the entries in place, with their ids
    and names: none adds, removes or reorders an entry. The toggle keeps
    every unit and quantity, the unit change every quantity and selection,
    the quantity change every unit and selection; the configuration, the
    view flags and the notice are kept by all three. *)
Theorem edit_keeps_other_fields (id0 : Z) (unit0 quantity0 : string) (st : AppState) :
  let c := handleCheckboxChange id0 st in
  let u := handleUnitChange id0 unit0 st in
  let q := handleQuantityChange id0 quantity0 st in
  (map id (items c) = map id (items st) /\
   map name (items c) = map name (items st) /\
   map unit (items c) = map unit (items st) /\
   map quantity (items c) = map quantity (items st)) /\
  (map id (items u) = map id (items st) /\
   map name (items u) = map name (items st) /\
   map quantity (items u) = map quantity (items st) /\
   map selected (items u) = map selected (items st)) /\
  (map id (items q) = map id (items st) /\
   map name (items q) = map name (items st) /\
   map unit (items q) = map unit (items st) /\
   map selected (items q) = map selected (items st)) /\
  same_but_items c st /\ same_but_items u st /\ same_but_items q st.
Proof.
  cbn zeta.
  rewrite handleCheckboxChange_items, handleUnitChange_items,
    handleQuantityChange_items.
  unfold same_but_items.
  repeat split; apply replace_by_id_map_field; reflexivity.
Qed.

(** ** How edits compose *)

(** X2. Edits of different kinds commute, whatever their ids, and so do two
    toggles: a unit change and a quantity change, a toggle and a unit
    change, a toggle and a quantity change can be applied in either
    order. *)
Theorem edit_handlers_commute (a b : Z) (unit0 quantity0 : string) (st : AppState) :
  handleUnitChange a unit0 (handleQuantityChange b quantity0 st)
  = handleQuantityChange b quantity0 (handleUnitChange a unit0 st) /\
  handleCheckboxChange a (handleUnitChange b unit0 st)
  = handleUnitChange b unit0 (handleCheckboxChange a st) /\
  handleCheckboxChange a (handleQuantityChange b quantity0 st)
  = handleQuantityChange b quantity0 (handleCheckboxChange a st) /\
  handleCheckboxChange a (handleCheckboxChange b st)
  = handleCheckboxChange b (handleCheckboxChange a st).
Proof.
  rewrite !handleUnitChange_eq, !handleQuantityChange_eq,
    !handleCheckboxChange_eq, !setItems_replace.
  repeat split; f_equal; apply replace_by_id_commute; reflexivity.
Qed.

(** X3. Two unit changes, or two quantity changes, of the same id: the second
    value wins, as if the first call had not been made. *)
Theorem edit_last_write_wins (id0 : Z) (v1 v2 : string) (st : AppState) :
  handleUnitChange id0 v2 (handleUnitChange id0 v1 st)
  = handleUnitChange id0 v2 st /\
  handleQuantityChange id0 v2 (handleQuantityChange id0 v1 st)
  = handleQuantityChange id0 v2 st.
Proof.
  rewrite !handleUnitChange_eq, !handleQuantityChange_eq, !setItems_replace.
  rewrite !replace_by_id_twice by reflexivity. split; reflexivity.
Qed.

(** X4. Two unit changes, or two quantity changes, of different ids commute. *)
Theorem edit_distinct_ids_commute (a b : Z) (v1 v2 : string) (st : AppState) :
  a <> b ->
  handleUnitChange a v1 (handleUnitChange b v2 st)
  = handleUnitChange b v2 (handleUnitChange a v1 st) /\
  handleQuantityChange a v1 (handleQuantityChange b v2 st)
  = handleQuantityChange b v2 (handleQuantityChange a v1 st).
Proof.
  intros Hab.
  rewrite !handleUnitChange_eq, !handleQuantityChange_eq, !setItems_replace.
  split; f_equal; apply replace_by_id_commute;
    try reflexivity; intros; congruence.
Qed.

Lemma edit_distinct_ids_commute_witness :
  (1 <> 3)%Z /\
  handleUnitChange 1 "Litre(s)" (handleUnitChange 3 "Dozen" example_CatalogList)
  = handleUnitChange 3 "Dozen" (handleUnitChange 1 "Litre(s)" example_CatalogList).
Proof.
  assert (H : (1 <> 3)%Z) by discriminate.
  split; [exact H|].
  exact (proj1 (edit_distinct_ids_commute 1 3 "Litre(s)" "Dozen"
                  example_CatalogList H)).
Defined.

(** ** The count of selected entries *)

Lemma count_selected_toggle id0 l e :
  NoDup (map id l) -> In e l -> id e = id0 ->
  count_selected (replace_by_id id0 toggled l)
  = if selected e then count_selected l - 1 else S (count_selected l).
Proof.
  induction l as [|x l IH]; intros Hnd Hin Hid; [destruct Hin|].
  simpl in Hnd. inversion Hnd as [|? ? Hx Hnd']; subst.
  cbn [replace_by_id map count_selected].
  destruct Hin as [->|Hin].
  - rewrite Z.eqb_refl.
    change (map _ l) with (replace_by_id (id e) toggled l).
    rewrite replace_by_id_absent by assumption.
    cbn [toggled selected]. destruct (selected e); simpl; lia.
  - assert (Hne : id x <> id e).
    { intros E. apply Hx. rewrite E. now apply in_map. }
    rewrite (proj2 (Z.eqb_neq _ _) Hne).
    change (map _ l) with (replace_by_id (id e) toggled l).
    rewrite (IH Hnd' Hin eq_refl).
    assert (Hpos : selected e = true -> 0 < count_selected l).
    { intros Hs. apply count_selected_pos. apply Exists_exists. eauto. }
    destruct (selected e); [specialize (Hpos eq_refl)|]; lia.
Qed.

(** X5. In a list whose ids are pairwise distinct, ticking the box of an entry
    that is not selected raises [getSelectedCount] by one, and unticking a
    selected entry lowers it by one. *)
Theorem handleCheckboxChange_count (st : AppState) (e : GroceryItem) :
  NoDup (map id (items st)) ->
  In e (items st) ->
  getSelectedCount (handleCheckboxChange (id e) st)
  = if selected e then getSelectedCount st - 1 else S (getSelectedCount st).
Proof.
  intros Hnd Hin. rewrite !getSelectedCount_count, handleCheckboxChange_items.
  now apply count_selected_toggle.
Qed.

Lemma handleCheckboxChange_count_witness :
  getSelectedCount example_CatalogList = 2 /\
  getSelectedCount (handleCheckboxChange 2 example_CatalogList) = 3 /\
  getSelectedCount (handleCheckboxChange 3 example_CatalogList) = 1.
Proof.
  assert (Hnd : NoDup (map id (items example_CatalogList))).
  { vm_compute. repeat constructor; simpl; intuition discriminate. }
  split; [reflexivity|]. split.
  - refine (handleCheckboxChange_count example_CatalogList
              (mkGroceryItem 2 "Bread" "Kg(s)" "1" false) Hnd _).
    vm_compute. right. left. reflexivity.
  - refine (handleCheckboxChange_count example_CatalogList
              (mkGroceryItem 3 "Eggs" "Other" "2" true) Hnd _).
    vm_compute. right. right. left. reflexivity.
Defined.

(** ** The export text and the entries that are not selected *)

Lemma filter_selected_replace id0 f l :
  (forall e, selected (f e) = selected e) ->
  (forall e, In e l -> id e = id0 -> selected e = false) ->
  filter (fun item => selected item) (replace_by_id id0 f l)
  = filter (fun item => selected item) l.
Proof.
  intros Hf. induction l as [|x l IH]; intros Hun; [reflexivity|].
  cbn [replace_by_id map filter].
  change (map _ l) with (replace_by_id id0 f l).
  rewrite IH by (intros e He; apply Hun; now right).
  destruct (Z.eqb_spec (id x) id0) as [E|_]; [|reflexivity].
  rewrite Hf, (Hun x (or_introl eq_refl) E). reflexivity.
Qed.

(** The text depends on the state through the configuration and the
    selected entries only. *)
Lemma generateListText_depends now st st' :
  config st' = config st -> getSelectedItems st' = getSelectedItems st ->
  App.generateListText now st' = App.generateListText now st /\
  CatalogList.generateListText now st' = CatalogList.generateListText now st.
Proof.
  intros Hc Hs. unfold App.generateListText, CatalogList.generateListText.
  rewrite Hc, Hs. split; reflexivity.
Qed.

(** X6. Changing the unit or the quantity of an id whose entries are not
    selected changes neither the selected entries nor the export text of
    either variant. *)
Theorem edit_unselected_keeps_text
        (now : JsDate) (id0 : Z) (unit0 quantity0 : string) (st : AppState) :
  (forall e, In e (items st) -> id e = id0 -> selected e = false) ->
  forall st', In st' [handleUnitChange id0 unit0 st;
                      handleQuantityChange id0 quantity0 st] ->
    getSelectedItems st' = getSelectedItems st /\
    App.generateListText now st' = App.generateListText now st /\
    CatalogList.generateListText now st' = CatalogList.generateListText now st.
Proof.
  intros Hun st' Hst'.
  assert (Hsel : getSelectedItems st' = getSelectedItems st).
  { unfold getSelectedItems.
    destruct Hst' as [<-|[<-|[]]];
      [rewrite handleUnitChange_items | rewrite handleQuantityChange_items];
      apply filter_selected_replace; auto. }
  split; [exact Hsel|].
  apply generateListText_depends; [|exact Hsel].
  destruct Hst' as [<-|[<-|[]]]; reflexivity.
Qed.

Lemma edit_unselected_keeps_text_witness :
  CatalogList.generateListText example_date
    (handleQuantityChange 2 "7" example_CatalogList)
  = CatalogList.generateListText example_date example_CatalogList.
Proof.
  assert (Hun : forall e, In e (items example_CatalogList) ->
                          id e = 2%Z -> selected e = false).
  { intros e He Hid. vm_compute in He.
    destruct He as [<-|[<-|[<-|[]]]]; try reflexivity; discriminate. }
  refine (proj2 (proj2 (edit_unselected_keeps_text example_date 2 "Dozen" "7"
                          example_CatalogList Hun _ _))).
  right. left. reflexivity.
Defined.

(** X7. With a configuration and no selected entry, the text of App.tsx is its
    header alone and the text of the other variant is its header, the
    separator and "Total Items: 0". *)
Theorem generateListText_nothing_selected
        (now : JsDate) (st : AppState) (cfg : GroceryConfig) :
  config st = Some cfg ->
  Forall (fun e => selected e = false) (items st) ->
  App.generateListText now st = App_header now cfg /\
  CatalogList.generateListText now st
  = CatalogList_header now cfg
    ++ LF ++ "-----------------------------------" ++ LF ++ "Total Items: 0".
Proof.
  intros Hc Hnone.
  assert (Hsel : getSelectedItems st = []).
  { unfold getSelectedItems.
    induction Hnone as [|e l He _ IH]; [reflexivity|].
    simpl. now rewrite He. }
  rewrite (App_generateListText_shape now st cfg Hc),
    (CatalogList_generateListText_shape now st cfg Hc), Hsel.
  simpl. rewrite append_empty_r. split; reflexivity.
Qed.

Lemma generateListText_nothing_selected_witness :
  let st := CatalogList.loadConfig (FetchOk example_config) initialState in
  App.generateListText example_date st = App_header example_date example_config.
Proof.
  intros st.
  assert (Hnone : Forall (fun e => selected e = false) (items st))
    by (vm_compute; repeat constructor).
  exact (proj1 (generateListText_nothing_selected example_date st
                  example_config eq_refl Hnone)).
Defined.

(** ** Preview and back *)

(** X8. From the editing view with an entry selected, submit followed by
    "Back to List" gives the state before the submit: nothing entered is
    lost by looking at the preview. *)
Theorem handleSubmit_then_back (st : AppState) :
  render st = EditingView ->
  Exists (fun e => selected e = true) (items st) ->
  render (handleSubmit st) = PreviewView /\
  handleBackToList (handleSubmit st) = st.
Proof.
  intros Hr Hsome.
  assert (Hp : showPreview st = false).
  { unfold render in Hr. destruct (loading st); [discriminate|].
    destruct (config st); [|discriminate].
    destruct (showPreview st); [discriminate | reflexivity]. }
  unfold handleSubmit. rewrite getSelectedCount_count.
  apply count_selected_pos in Hsome.
  destruct (Nat.eqb_spec (count_selected (items st)) 0) as [E|_]; [lia|].
  split.
  - unfold render in *. simpl. destruct (loading st); [discriminate|].
    destruct (config st); [reflexivity | discriminate].
  - destruct st; simpl in *. now subst.
Qed.

Lemma handleSubmit_then_back_witness :
  handleBackToList (handleSubmit example_CatalogList) = example_CatalogList.
Proof.
  assert (Hsome : Exists (fun e => selected e = true) (items example_CatalogList))
    by (vm_compute; left; reflexivity).
  exact (proj2 (handleSubmit_then_back example_CatalogList eq_refl Hsome)).
Defined.

(** ** [encodeURIComponent] *)

Lemma string_forall_append p a b :
  string_forall p (a ++ b) = string_forall p a && string_forall p b.
Proof.
  induction a as [|x a IH]; simpl; [reflexivity|].
  now rewrite IH, andb_assoc.
Qed.

Lemma percent_encode_safe c : string_forall url_safe (percent_encode c) = true.
Proof. destruct c as [[] [] [] [] [] [] [] []]; reflexivity. Qed.

Lemma percent_decode_escape c r :
  percent_decode (percent_encode c ++ r)
  = option_map (String c) (percent_decode r).
Proof.
  destruct c as [[] [] [] [] [] [] [] []];
    cbn; destruct (percent_decode r); reflexivity.
Qed.

Lemma percent_decode_unreserved c r :
  unreserved c = true ->
  percent_decode (String c r) = option_map (String c) (percent_decode r).
Proof.
  intros Hc. cbn [percent_decode].
  destruct (Ascii.eqb_spec c "%") as [->|_]; [discriminate | reflexivity].
Qed.

Lemma encodeURIComponent_safe_all s :
  string_forall url_safe (encodeURIComponent s) = true.
Proof.
  induction s as [|c s IH]; [reflexivity|].
  cbn [encodeURIComponent]. rewrite string_forall_append, IH, andb_true_r.
  destruct (unreserved c) eqn:E; [|apply percent_encode_safe].
  simpl. unfold url_safe. now rewrite E.
Qed.

Lemma encodeURIComponent_round s :
  percent_decode (encodeURIComponent s) = Some s.
Proof.
  induction s as [|c s IH]; [reflexivity|].
  cbn [encodeURIComponent].
  destruct (unreserved c) eqn:E.
  - change (String c "" ++ encodeURIComponent s)
      with (String c (encodeURIComponent s)).
    now rewrite percent_decode_unreserved, IH.
  - now rewrite percent_decode_escape, IH.
Qed.

(** X9. The result of [encodeURIComponent] is made of letters, digits, the
    marks [- _ . ! ~ * ' ( )] and the percent sign only: no space, line
    feed, ampersand, equals sign, hash, question mark, slash or plus sign
    is left in it, and no byte above 127. *)
Theorem encodeURIComponent_safe (s : string) :
  string_forall url_safe (encodeURIComponent s) = true /\
  string_forall
    (fun c => negb (existsb (Ascii.eqb c)
                            (list_ascii_of_string (" &=#?/+" ++ LF)))
              && (nat_of_ascii c <? 128)%nat)
    (encodeURIComponent s) = true.
Proof.
  pose proof (encodeURIComponent_safe_all s) as Hsafe.
  split; [exact Hsafe|].
  revert Hsafe. generalize (encodeURIComponent s) as t.
  induction t as [|c t IH]; [reflexivity|].
  cbn [string_forall]. intros H. apply andb_prop in H. destruct H as [Hc Ht].
  rewrite (IH Ht), andb_true_r. clear IH Ht.
  destruct c as [[] [] [] [] [] [] [] []]; try reflexivity; discriminate.
Qed.

(** X10. [encodeURIComponent] loses nothing: reading the escapes back gives
    the text it was given, so two texts with the same encoding are the
    same text. *)
Theorem encodeURIComponent_decode (s : string) :
  percent_decode (encodeURIComponent s) = Some s /\
  (forall s', encodeURIComponent s' = encodeURIComponent s <-> s' = s).
Proof.
  split; [apply encodeURIComponent_round|].
  intros s'. split; [|now intros ->].
  intros H. pose proof (encodeURIComponent_round s') as Hs'.
  rewrite H, encodeURIComponent_round in Hs'. congruence.
Qed.

(** ** The exporters *)

Lemma showToast_same_but_toast message type st :
  same_but_toast (showToast message type st) st.
Proof. repeat split. Qed.

Lemma showToast_render message type st :
  render (showToast message type st) = render st.
Proof. reflexivity. Qed.

(** X11. Copy, download and send change neither the entries, nor the
    configuration, nor the view: in both variants the state they leave is
    the one they found, but for the notice and its timer. *)
Theorem exporters_keep_page (now nowName : JsDate) (written : bool) (st : AppState) :
  same_but_toast (snd (App.handleCopyToClipboard now written st)) st /\
  same_but_toast (snd (App.handleDownload now nowName st)) st /\
  same_but_toast (snd (App.handleSendWhatsApp now st)) st /\
  same_but_toast (snd (CatalogList.handleCopyToClipboard now written st)) st /\
  same_but_toast (snd (CatalogList.handleDownload now nowName st)) st /\
  same_but_toast (snd (CatalogList.handleSendWhatsApp now st)) st.
Proof.
  unfold App.handleCopyToClipboard, CatalogList.handleCopyToClipboard,
    App.handleSendWhatsApp, CatalogList.handleSendWhatsApp.
  destruct written, (config st); repeat split.
Qed.


(** ** Notices *)





(** X15. The configuration-error view is final: the only thing that can still
    happen is a timer firing, after which the view is the same. *)
Theorem configuration_error_absorbing (v : Variant) (ev : Event) (st : AppState) :
  render st = ConfigurationErrorView ->
  enabled v st ev ->
  ev = TimeoutFired /\
  render (dispatch v ev st) = ConfigurationErrorView /\
  items (dispatch v ev st) = items st.
Proof.
  intros Hr Hen.
  assert (Hl : loading st = false /\ config st = None).
  { unfold render in Hr. destruct (loading st); [discriminate|].
    destruct (config st); [destruct (showPreview st); discriminate | auto]. }
  destruct Hl as [Hl Hc].
  destruct ev; cbn [enabled] in Hen;
    try (rewrite Hr in Hen; intuition discriminate).
  - congruence.
  - destruct Hen as [_ Hn]. congruence.
  - split; [reflexivity|]. cbn [dispatch]. unfold timeoutFires, render.
    destruct (timeouts st); simpl; rewrite Hl, Hc; split; reflexivity.
Qed.

Lemma configuration_error_absorbing_witness :
  let st := loadConfig_of AppVariant FetchFailed initialState in
  render st = ConfigurationErrorView /\
  enabled AppVariant st TimeoutFired /\
  render (dispatch AppVariant TimeoutFired st) = ConfigurationErrorView.
Proof.
  intros st.
  assert (Hen : enabled AppVariant st TimeoutFired) by (simpl; discriminate).
  pose proof (configuration_error_absorbing AppVariant TimeoutFired st
                eq_refl Hen) as (_ & Hr & _).
  split; [reflexivity|]. split; [exact Hen | exact Hr].
Defined.

(** X16. Two notices in a row, none pending before: the second replaces the
    first, and the timer set for the first hides the second when it fires,
    while the timer of the second is still pending. *)
Theorem earlier_timer_hides_later_notice
        (m1 t1 m2 t2 : string) (st : AppState) :
  timeouts st = [] ->
  let st2 := showToast m2 t2 (showToast m1 t1 st) in
  toast st2 = mkToast true m2 t2 /\
  timeouts st2 = [3000%Z; 3000%Z] /\
  toast (timeoutFires st2) = mkToast false "" "" /\
  timeouts (timeoutFires st2) = [3000%Z] /\
  same_but_toast (timeoutFires st2) st.
Proof.
  intros Ht. unfold timeoutFires, showToast, same_but_toast. simpl.
  rewrite Ht. simpl. repeat split.
Qed.

Lemma earlier_timer_hides_later_notice_witness :
  let st := handleSubmit example_CatalogList in
  let st2 := showToast "Opening WhatsApp..." "info"
               (showToast "List downloaded successfully!" "success" st) in
  timeouts st = [] /\
  toast st2 = mkToast true "Opening WhatsApp..." "info" /\
  toast (timeoutFires st2) = mkToast false "" "".
Proof.
  intros st st2.
  pose proof (earlier_timer_hides_later_notice
                "List downloaded successfully!" "success"
                "Opening WhatsApp..." "info" st eq_refl) as (H1 & _ & H3 & _).
  split; [reflexivity|]. split; [exact H1 | exact H3].
Defined.

(** ** The states the page can reach *)

Lemma render_editing st :
  render st = EditingView ->
  loading st = false /\ showPreview st = false /\ exists cfg, config st = Some cfg.
Proof.
  unfold render. destruct (loading st); [discriminate|].
  destruct (config st); [|discriminate].
  destruct (showPreview st); [discriminate | eauto].
Qed.

Lemma render_preview st :
  render st = PreviewView ->
  loading st = false /\ showPreview st = true /\ exists cfg, config st = Some cfg.
Proof.
  unfold render. destruct (loading st); [discriminate|].
  destruct (config st); [|discriminate].
  destruct (showPreview st); [eauto | discriminate].
Qed.

(** A state that differs by its notice only satisfies the invariant as
    soon as its notice has a timer. *)
Lemma page_invariant_same_but_toast v st st' :
  same_but_toast st' st -> loading st = false ->
  (toast_show (toast st') = true -> timeouts st' <> []) ->
  page_invariant v st -> page_invariant v st'.
Proof.
  intros (Hi & Hc & Hl & Hp) Hload Ht (_ & _ & H3).
  split; [intros H; congruence|]. split; [exact Ht|].
  intros _. rewrite Hc, Hi, Hp. exact (H3 Hload).
Qed.

Lemma page_invariant_showToast v message type st :
  loading st = false -> page_invariant v st ->
  page_invariant v (showToast message type st).
Proof.
  intros Hl. apply page_invariant_same_but_toast;
    [apply showToast_same_but_toast | exact Hl|].
  intros _. simpl. now destruct (timeouts st).
Qed.

(** An edit made in the editing view keeps the invariant when it keeps
    the ids and the names and writes offered units only. *)
Lemma page_invariant_edit v st l' :
  render st = EditingView ->
  map id l' = map id (items st) ->
  map name l' = map name (items st) ->
  (forall cfg, config st = Some cfg ->
     Forall (fun u => In u (default_unit_of v :: unit_options v cfg))
            (map unit (items st)) ->
     Forall (fun u => In u (default_unit_of v :: unit_options v cfg))
            (map unit l')) ->
  page_invariant v st -> page_invariant v (setItems l' st).
Proof.
  intros Hr Hid Hname Hunit (_ & H2 & H3).
  destruct (render_editing st Hr) as (Hl & Hp & cfg & Hc).
  specialize (H3 Hl). rewrite Hc in H3. destruct H3 as (Ei & En & Eu & _).
  split; [simpl; intros H; congruence|]. split; [exact H2|].
  intros _. simpl. rewrite Hc, Hid, Hname, Hp.
  split; [exact Ei|]. split; [exact En|].
  split; [exact (Hunit cfg Hc Eu) | discriminate].
Qed.

Lemma units_after_change (P : string -> Prop) id0 unit0 l :
  P unit0 -> Forall P (map unit l) ->
  Forall P (map unit (replace_by_id id0 (with_unit unit0) l)).
Proof.
  intros Hu. induction l as [|e l IH]; intros H; [constructor|].
  inversion H; subst. cbn [replace_by_id map].
  constructor; [|now apply IH].
  destruct (id e =? id0)%Z; assumption.
Qed.

Lemma page_invariant_load v r : page_invariant v (loadConfig_of v r initialState).
Proof.
  split; [destruct v, r; discriminate|]. split; [destruct v, r; discriminate|].
  intros _. destruct r as [cfg|]; [|destruct v; split; reflexivity].
  assert (H : forall u,
             let l := map (fun item =>
                             mkGroceryItem (cat_id item) (cat_name item) u "1" false)
                          (cfg_items cfg) in
             map id l = map cat_id (cfg_items cfg) /\
             map name l = map cat_name (cfg_items cfg) /\
             Forall (fun x => In x (u :: unit_options v cfg)) (map unit l)).
  { intros u l. subst l. rewrite !map_map. repeat split.
    apply Forall_forall. intros x Hx. apply in_map_iff in Hx.
    destruct Hx as (c & <- & _). now left. }
  destruct v; simpl;
    [destruct (H "KG(s)") as (A & B & C) | destruct (H "Kg(s)") as (A & B & C)];
    repeat split; auto; discriminate.
Qed.

(** Every event that can happen keeps the invariant. *)
Lemma page_invariant_step v st ev :
  page_invariant v st -> enabled v st ev -> page_invariant v (dispatch v ev st).
Proof.
  intros Hinv Hen.
  destruct ev; cbn [enabled dispatch] in *.
  - rewrite (proj1 Hinv Hen). apply page_invariant_load.
  - destruct Hen as [Hr _]. rewrite handleCheckboxChange_eq.
    apply page_invariant_edit; auto;
      try (apply replace_by_id_map_field; reflexivity).
    intros cfg _ H. now rewrite replace_by_id_map_field.
  - destruct Hen as (Hr & _ & cfg & Hc & Hin). rewrite handleUnitChange_eq.
    apply page_invariant_edit; auto;
      try (apply replace_by_id_map_field; reflexivity).
    intros cfg' Hc' H. apply units_after_change; [|exact H].
    right. congruence.
  - destruct Hen as [Hr _]. rewrite handleQuantityChange_eq.
    apply page_invariant_edit; auto;
      try (apply replace_by_id_map_field; reflexivity).
    intros cfg _ H. now rewrite replace_by_id_map_field.
  - destruct (render_editing st Hen) as (Hl & Hp & cfg & Hc).
    unfold handleSubmit. rewrite getSelectedCount_count.
    destruct (Nat.eqb_spec (count_selected (items st)) 0) as [E|N];
      [now apply page_invariant_showToast|].
    destruct Hinv as (_ & H2 & H3). specialize (H3 Hl). rewrite Hc in H3.
    split; [simpl; intros H; congruence|]. split; [exact H2|].
    intros _. simpl. rewrite Hc. destruct H3 as (A & B & C & _).
    repeat split; auto. lia.
  - destruct (render_preview st Hen) as (Hl & Hp & cfg & Hc).
    destruct Hinv as (_ & H2 & H3). specialize (H3 Hl). rewrite Hc in H3.
    split; [simpl; intros H; congruence|]. split; [exact H2|].
    intros _. simpl. rewrite Hc. destruct H3 as (A & B & C & _).
    repeat split; auto. discriminate.
  - destruct Hen as [Hl _].
    destruct v, written; now apply page_invariant_showToast.
  - destruct (render_preview st Hen) as (Hl & _).
    destruct v; now apply page_invariant_showToast.
  - destruct (render_preview st Hen) as (Hl & _ & cfg & Hc).
    destruct v; unfold App.handleSendWhatsApp, CatalogList.handleSendWhatsApp;
      rewrite Hc; now apply page_invariant_showToast.
  - unfold timeoutFires. destruct (timeouts st) as [|d rest] eqn:Et;
      [congruence|].
    destruct Hinv as (H1 & _ & H3).
    split; [simpl; intros Hl; specialize (H1 Hl); subst st; discriminate|].
    split; [discriminate|]. exact H3.
Qed.

Lemma reachable_invariant v st : reachable v st -> page_invariant v st.
Proof.
  induction 1 as [|st ev _ IH Hen].
  - split; [reflexivity|]. split; discriminate.
  - now apply page_invariant_step.
Qed.

Lemma count_selected_le_length l : count_selected l <= List.length l.
Proof. induction l as [|e l IH]; simpl; [lia | destruct (selected e); lia]. Qed.

Lemma reachable_loaded v st cfg :
  reachable v st -> config st = Some cfg -> loading st = false.
Proof.
  intros Hreach Hc. destruct (loading st) eqn:Hl; [|reflexivity].
  rewrite (proj1 (reachable_invariant v st Hreach) Hl) in Hc. discriminate.
Qed.

(** X17. The preview is never empty: whenever the component shows the preview,
    a configuration is loaded and at least one entry is selected, so the
    export has a first numbered line. *)
Theorem reachable_preview_has_selection (v : Variant) (st : AppState) :
  reachable v st ->
  render st = PreviewView ->
  0 < getSelectedCount st /\
  (exists cfg, config st = Some cfg) /\
  (exists e rest, getSelectedItems st = e :: rest).
Proof.
  intros Hreach Hr.
  destruct (render_preview st Hr) as (Hl & Hp & cfg & Hc).
  destruct (reachable_invariant v st Hreach) as (_ & _ & H3).
  specialize (H3 Hl). rewrite Hc in H3. destruct H3 as (_ & _ & _ & Hsel).
  specialize (Hsel Hp).
  assert (Hcount : 0 < getSelectedCount st)
    by (now rewrite getSelectedCount_count).
  split; [exact Hcount|]. split; [eauto|].
  unfold getSelectedCount in Hcount. unfold getSelectedItems.
  destruct (filter (fun item => selected item) (items st)) as [|e rest];
    [simpl in Hcount; lia | eauto].
Qed.

(** X18. With a configuration loaded, the entries are the catalog items, one
    for one and in the catalog's order, with the catalog's ids and names,
    whatever was done on the page; the selected count never exceeds the
    size of the catalog. *)
Theorem reachable_entries_match_catalog
        (v : Variant) (st : AppState) (cfg : GroceryConfig) :
  reachable v st ->
  config st = Some cfg ->
  map id (items st) = map cat_id (cfg_items cfg) /\
  map name (items st) = map cat_name (cfg_items cfg) /\
  List.length (items st) = List.length (cfg_items cfg) /\
  getSelectedCount st <= List.length (cfg_items cfg).
Proof.
  intros Hreach Hc.
  pose proof (reachable_loaded v st cfg Hreach Hc) as Hl.
  destruct (reachable_invariant v st Hreach) as (_ & _ & H3).
  specialize (H3 Hl). rewrite Hc in H3. destruct H3 as (Hid & Hname & _).
  assert (Hlen : List.length (items st) = List.length (cfg_items cfg)).
  { rewrite <- (length_map id (items st)), Hid. apply length_map. }
  repeat split; auto.
  rewrite getSelectedCount_count, <- Hlen. apply count_selected_le_length.
Qed.

(** X19. The unit of an entry is the variant's default unit or one of the
    options of the unit select: the configured units, and "Other" in the
    variant of part_000. *)
Theorem reachable_units_offered
        (v : Variant) (st : AppState) (cfg : GroceryConfig) :
  reachable v st ->
  config st = Some cfg ->
  Forall (fun e => unit e = default_unit_of v \/ In (unit e) (unit_options v cfg))
         (items st).
Proof.
  intros Hreach Hc.
  pose proof (reachable_loaded v st cfg Hreach Hc) as Hl.
  destruct (reachable_invariant v st Hreach) as (_ & _ & H3).
  specialize (H3 Hl). rewrite Hc in H3. destruct H3 as (_ & _ & Hu & _).
  apply Forall_forall. intros e He.
  pose proof (proj1 (Forall_forall _ _) Hu (unit e) (in_map unit _ _ He)) as H.
  destruct H as [H|H]; [left; now symmetry | now right].
Qed.

(** X20. A notice that is set always has a pending timer, and when the oldest
    pending timer fires no notice is set any more: no notice stays for
    ever. *)
Theorem reachable_notice_has_timer (v : Variant) (st : AppState) :
  reachable v st ->
  toast_show (toast st) = true ->
  timeouts st <> [] /\
  enabled v st TimeoutFired /\
  toast_show (toast (dispatch v TimeoutFired st)) = false.
Proof.
  intros Hreach Ht.
  pose proof (proj1 (proj2 (reachable_invariant v st Hreach)) Ht) as Hn.
  split; [exact Hn|]. split; [exact Hn|].
  cbn [dispatch]. unfold timeoutFires.
  destruct (timeouts st); [congruence | reflexivity].
Qed.

(** X21. Without a configuration (before the load settles, or after it failed)
    there is no entry and no preview, and nothing is selected. *)
Theorem reachable_without_config (v : Variant) (st : AppState) :
  reachable v st ->
  config st = None ->
  items st = [] /\ showPreview st = false /\ getSelectedCount st = 0 /\
  render st <> EditingView /\ render st <> PreviewView.
Proof.
  intros Hreach Hc.
  assert (H : items st = [] /\ showPreview st = false).
  { destruct (loading st) eqn:Hl.
    - rewrite (proj1 (reachable_invariant v st Hreach) Hl). split; reflexivity.
    - destruct (reachable_invariant v st Hreach) as (_ & _ & H3).
      specialize (H3 Hl). now rewrite Hc in H3. }
  destruct H as [Hi Hp]. unfold getSelectedCount, render.
  rewrite Hi, Hc. repeat split; auto; destruct (loading st); discriminate.
Qed.

(** *** The example as a run of the page *)

Lemma example_loaded_reachable :
  reachable CatalogListVariant
    (CatalogList.loadConfig (FetchOk example_config) initialState).
Proof.
  apply (reachable_step CatalogListVariant initialState
           (FetchSettled (FetchOk example_config)));
    [constructor | reflexivity].
Defined.

Lemma example_CatalogList_reachable :
  reachable CatalogListVariant example_CatalogList.
Proof.
  unfold example_CatalogList, example_edits.
  apply (reachable_step CatalogListVariant _ (UnitChange 3 "Other")).
  apply (reachable_step CatalogListVariant _ (UnitChange 1 "Kg(s)")).
  apply (reachable_step CatalogListVariant _ (QuantityChange 3 "2")).
  apply (reachable_step CatalogListVariant _ (QuantityChange 1 "2")).
  apply (reachable_step CatalogListVariant _ (CheckboxChange 3)).
  apply (reachable_step CatalogListVariant _ (CheckboxChange 1)).
  - exact example_loaded_reachable.
  - split; [reflexivity | vm_compute; auto].
  - split; [reflexivity | vm_compute; auto].
  - split; [reflexivity|].
    exists (mkGroceryItem 1 "Milk" "Kg(s)" "1" true). vm_compute. auto.
  - split; [reflexivity|].
    exists (mkGroceryItem 3 "Eggs" "Kg(s)" "1" true). vm_compute. auto.
  - split; [reflexivity|]. split.
    + exists (mkGroceryItem 1 "Milk" "Kg(s)" "2" true). vm_compute. auto.
    + exists example_config. vm_compute. auto.
  - split; [reflexivity|]. split.
    + exists (mkGroceryItem 3 "Eggs" "Kg(s)" "2" true). vm_compute. auto.
    + exists example_config. vm_compute. auto.
Defined.

Lemma reachable_preview_has_selection_witness :
  let st := dispatch CatalogListVariant SubmitClick example_CatalogList in
  reachable CatalogListVariant st /\ render st = PreviewView /\
  0 < getSelectedCount st.
Proof.
  intros st.
  assert (Hreach : reachable CatalogListVariant st).
  { apply reachable_step; [exact example_CatalogList_reachable | reflexivity]. }
  split; [exact Hreach|]. split; [reflexivity|].
  exact (proj1 (reachable_preview_has_selection CatalogListVariant st
                  Hreach eq_refl)).
Defined.

Lemma reachable_entries_match_catalog_witness :
  reachable CatalogListVariant example_CatalogList /\
  map id (items example_CatalogList) = [1; 2; 3]%Z /\
  map name (items example_CatalogList) = ["Milk"; "Bread"; "Eggs"].
Proof.
  pose proof (reachable_entries_match_catalog CatalogListVariant
                example_CatalogList example_config
                example_CatalogList_reachable eq_refl) as (Hid & Hname & _).
  split; [exact example_CatalogList_reachable|].
  split; [exact Hid | exact Hname].
Defined.

Lemma reachable_units_offered_witness :
  reachable CatalogListVariant example_CatalogList /\
  Forall (fun e => unit e = "Kg(s)" \/ In (unit e) ["Kg(s)"; "Other"; "Other"])
         (items example_CatalogList).
Proof.
  split; [exact example_CatalogList_reachable|].
  exact (reachable_units_offered CatalogListVariant example_CatalogList
           example_config example_CatalogList_reachable eq_refl).
Defined.

Lemma reachable_notice_has_timer_witness :
  let st := dispatch CatalogListVariant SubmitClick
              (CatalogList.loadConfig (FetchOk example_config) initialState) in
  reachable CatalogListVariant st /\
  toast st = mkToast true "Please select at least one item" "warning" /\
  timeouts st <> [].
Proof.
  intros st.
  assert (Hreach : reachable CatalogListVariant st).
  { apply reachable_step; [exact example_loaded_reachable | reflexivity]. }
  split; [exact Hreach|]. split; [reflexivity|].
  exact (proj1 (reachable_notice_has_timer CatalogListVariant st Hreach eq_refl)).
Defined.

Lemma reachable_without_config_witness :
  let st := dispatch AppVariant (FetchSettled FetchFailed) initialState in
  reachable AppVariant st /\ config st = None /\ items st = [].
Proof.
  intros st.
  assert (Hreach : reachable AppVariant st).
  { apply reachable_step; [constructor | reflexivity]. }
  split; [exact Hreach|]. split; [reflexivity|].
  exact (proj1 (reachable_without_config AppVariant st Hreach eq_refl)).
Defined.

(** ** The date and the file name *)

(** [String(n)] read back as a decimal numeral is [n]. *)
Lemma decimal_value_String_of_number (n : Z) :
  decimal_value (String_of_number n) = Some n.
Proof.
  unfold decimal_value, String_of_number.
  rewrite NilZero.isi.
  - simpl. f_equal. apply DecimalZ.of_to.
  - destruct n; simpl; try discriminate.
    intros [= H]. now apply Unsigned.to_uint_nonnil in H.
  - destruct n; simpl; try discriminate.
    intros [= H]. now apply Unsigned.to_uint_nonnil in H.
Qed.

Lemma month_abbreviations_NoDup : NoDup month_abbreviations.
Proof.
  unfold month_abbreviations.
  repeat (constructor; [simpl; intuition discriminate|]). constructor.
Qed.

(** The three pieces of [formatDate], for any year. *)
Lemma formatDate_parts date :
  valid_JsDate date ->
  exists a b m1 m2 m3,
    formatDate date
    = String a (String b (String "-" (String m1 (String m2 (String m3
        (String "-" (String_of_number (getFullYear date)))))))) /\
    decimal_value (String a (String b "")) = Some (getDate date) /\
    nth_error month_abbreviations (Z.to_nat (getMonth date))
    = Some (String m1 (String m2 (String m3 ""))).
Proof.
  intros (Hd & Hm & _).
  pose proof (day_ok_all _ Hd) as Hday.
  pose proof (month_ok_all _ Hm) as Hmonth.
  unfold formatDate, day_ok, month_ok in *.
  change (monthShort date) with (monthShort (mkJsDate 0 (getMonth date) 1)).
  destruct (padStart (String_of_number (getDate date)) 2 "0")
    as [|a [|b [|? ?]]]; try discriminate.
  destruct (monthShort (mkJsDate 0 (getMonth date) 1))
    as [|m1 [|m2 [|m3 [|? ?]]]]; try discriminate.
  destruct (nth_error month_abbreviations (Z.to_nat (getMonth date)))
    as [abbreviation|]; [|discriminate].
  apply String.eqb_eq in Hmonth. subst abbreviation.
  apply andb_prop in Hday. destruct Hday as [_ Hdv].
  exists a, b, m1, m2, m3. split; [reflexivity|].
  split; [now apply reads_as_value | reflexivity].
Qed.

Lemma append_cancel_r (a b s : string) : a ++ s = b ++ s -> a = b.
Proof.
  revert b. induction a as [|x a IH]; intros [|y b] H; simpl in H.
  - reflexivity.
  - apply (f_equal String.length) in H. simpl in H.
    rewrite length_append in H. lia.
  - apply (f_equal String.length) in H. simpl in H.
    rewrite length_append in H. lia.
  - injection H as -> H. f_equal. now apply IH.
Qed.

(** X22. Two dates with the same [formatDate], or the same download file
    name, have the same day, month and year: the exports of different days
    never share a file name. *)
Theorem formatDate_injective (d1 d2 : JsDate) :
  valid_JsDate d1 -> valid_JsDate d2 ->
  formatDate d1 = formatDate d2 \/
  "grocery-list-" ++ formatDate d1 ++ ".txt"
  = "grocery-list-" ++ formatDate d2 ++ ".txt" ->
  d1 = d2.
Proof.
  intros Hv1 Hv2 H.
  assert (Heq : formatDate d1 = formatDate d2).
  { destruct H as [H|H]; [exact H|].
    simpl in H. injection H as H. now apply append_cancel_r in H. }
  clear H.
  destruct (formatDate_parts d1 Hv1) as (a & b & m1 & m2 & m3 & E1 & D1 & M1).
  destruct (formatDate_parts d2 Hv2) as (a' & b' & m1' & m2' & m3' & E2 & D2 & M2).
  rewrite E1, E2 in Heq. injection Heq as -> -> -> -> -> Hy.
  assert (Hday : getDate d1 = getDate d2) by congruence.
  assert (Hyear : getFullYear d1 = getFullYear d2).
  { pose proof (decimal_value_String_of_number (getFullYear d1)) as Y1.
    pose proof (decimal_value_String_of_number (getFullYear d2)) as Y2.
    congruence. }
  assert (Hmonth : getMonth d1 = getMonth d2).
  { destruct Hv1 as (_ & R1 & _), Hv2 as (_ & R2 & _).
    assert (Hi : Z.to_nat (getMonth d1) = Z.to_nat (getMonth d2)).
    { apply (proj1 (NoDup_nth_error month_abbreviations)
               month_abbreviations_NoDup).
      - apply nth_error_Some. congruence.
      - congruence. }
    lia. }
  destruct d1, d2; simpl in *. congruence.
Qed.

Lemma formatDate_injective_witness :
  valid_JsDate example_date /\
  formatDate example_date = formatDate (mkJsDate 2026 10 3) /\
  example_date = mkJsDate 2026 10 3.
Proof.
  assert (Hv : valid_JsDate example_date) by (unfold valid_JsDate; simpl; lia).
  split; [exact Hv|]. split; [reflexivity|].
  exact (formatDate_injective example_date (mkJsDate 2026 10 3) Hv Hv
           (or_introl eq_refl)).
Defined.
